(** * SGMADocumentHunter: a shallow embedding of [document_hunter.py]

    The development follows the source file top-down:

    - Python values and strings ([str.lower], [in], [str.strip],
      [str.endswith], [re.search(r'\d{4}', _)], [int], f-string printing);
    - the parsed HTML snapshot as BeautifulSoup exposes it ([find],
      [find_all], [find_parent], [get_text(strip=True)], [.string],
      [tag.get], [tag[...]]);
    - the Playwright page as an abstract, stateful capability whose
      operations may raise;
    - the three methods [_find_basin_page], [_harvest_pdfs] and
      [get_basin_documents];
    - the properties of the resolution pipeline.

    Modelling conventions.  Strings are sequences of 8-bit characters,
    case folding is the ASCII one and the digits are "0" to "9" (the
    other Unicode letters and decimal digits that Python folds and parses
    are not represented).  A snapshot is a tree of tags and
    ordinary texts; comments and the contents of [script] and [style]
    elements are not represented.  [logger] calls have no influence on
    the returned values and are left out.  Exceptions are the subclasses
    of Python's [Exception]: those are exactly what [except Exception]
    catches. *)

From Stdlib Require Import ZArith Ascii String DecimalString List.
From stdpp Require Import base option list gmap strings fin_maps.

Local Open Scope string_scope.
Local Open Scope Z_scope.
Local Set Warnings "-register-all".

(* ===================================================================== *)
(** ** Python strings *)
(* ===================================================================== *)

Module PyStr.

(** [needle in hay] *)
Fixpoint str_in (needle hay : string) : bool :=
  if String.prefix needle hay then true
  else match hay with
       | EmptyString => false
       | String _ rest => str_in needle rest
       end.

Definition lower_char (c : ascii) : ascii :=
  let n := N_of_ascii c in
  if ((65 <=? n) && (n <=? 90))%N then ascii_of_N (n + 32) else c.

(** [s.lower()] *)
Fixpoint lower (s : string) : string :=
  match s with
  | EmptyString => EmptyString
  | String c rest => String (lower_char c) (lower rest)
  end.

(** The characters [str.strip()] removes: TAB, LF, VT, FF, CR,
    FS, GS, RS, US and the space. *)
Definition is_space (c : ascii) : bool :=
  let n := N_of_ascii c in
  (((9 <=? n) && (n <=? 13)) || ((28 <=? n) && (n <=? 32)))%N.

Fixpoint lstrip (s : string) : string :=
  match s with
  | EmptyString => EmptyString
  | String c rest => if is_space c then lstrip rest else s
  end.

Fixpoint rstrip (s : string) : string :=
  match s with
  | EmptyString => EmptyString
  | String c rest =>
      match rstrip rest with
      | EmptyString => if is_space c then EmptyString else String c EmptyString
      | r => String c r
      end
  end.

(** [s.strip()] *)
Definition strip (s : string) : string := rstrip (lstrip s).

(** [s.endswith(suffix)] *)
Fixpoint endswith (suffix s : string) : bool :=
  if String.eqb suffix s then true
  else match s with
       | EmptyString => false
       | String _ rest => endswith suffix rest
       end.

(** Truthiness of a [str]: the empty string is falsy. *)
Definition truthy (s : string) : bool :=
  match s with EmptyString => false | _ => true end.

Definition is_digit (c : ascii) : bool :=
  let n := N_of_ascii c in ((48 <=? n) && (n <=? 57))%N.

(** [re.match(r'\d{4}', s)]: four digits at the very start of [s]. *)
Definition match_d4 (s : string) : option string :=
  match s with
  | String a (String b (String c (String d _))) =>
      if is_digit a && is_digit b && is_digit c && is_digit d
      then Some (String a (String b (String c (String d EmptyString))))
      else None
  | _ => None
  end.

(** [re.search(r'\d{4}', s)]: the leftmost position where the pattern
    matches; the value is [m.group(0)]. *)
Fixpoint search_d4 (s : string) : option string :=
  match match_d4 s with
  | Some g => Some g
  | None => match s with
            | EmptyString => None
            | String _ rest => search_d4 rest
            end
  end.

Definition digit_value (c : ascii) : Z := Z.of_N (N_of_ascii c) - 48.

Fixpoint int_aux (s : string) (acc : Z) : Z :=
  match s with
  | EmptyString => acc
  | String c rest => int_aux rest (10 * acc + digit_value c)
  end.

(** [int(s)] on a string of decimal digits. *)
Definition int (s : string) : Z := int_aux s 0.

(** [f"{n}"] for an [int]. *)
Definition str_of_int (n : Z) : string :=
  NilZero.string_of_int (Z.to_int n).

End PyStr.

(* ===================================================================== *)
(** ** Python values, exceptions, results *)
(* ===================================================================== *)

(** The values stored in the result dictionary
    ([Dict[str, Union[str, int, None]]]). *)
Inductive pyval : Type :=
| VNone
| VStr (s : string)
| VInt (n : Z).

Inductive exn : Type :=
| StopIteration
| KeyError (key : string)
| AttributeError (msg : string)
| TimeoutError (msg : string)
| Error (msg : string).

Inductive result (A : Type) : Type :=
| Ok (a : A)
| Raise (e : exn).
Arguments Ok {A} a.
Arguments Raise {A} e.

(* ===================================================================== *)
(** ** The parsed snapshot (BeautifulSoup) *)
(* ===================================================================== *)

Module Soup.
Import PyStr.

(** A parse tree: text nodes and tags.  The [BeautifulSoup] object
    itself is the tag named ["[document]"]. *)
Inductive node : Type :=
| NavigableString (s : string)
| Tag (name : string) (attrs : list (string * string)) (contents : list node).

Definition soup (contents : list node) : node := Tag "[document]" [] contents.

(** [tag.descendants]: every node below [n], in document order. *)
Fixpoint descendants (n : node) : list node :=
  match n with
  | NavigableString _ => []
  | Tag _ _ cs =>
      (fix go (l : list node) : list node :=
         match l with
         | [] => []
         | c :: l' => c :: (descendants c ++ go l')%list
         end) cs
  end.

Definition has_name (names : list string) (n : node) : bool :=
  match n with
  | NavigableString _ => false
  | Tag nm _ _ => existsb (String.eqb nm) names
  end.

Fixpoint assoc (k : string) (l : list (string * string)) : option string :=
  match l with
  | [] => None
  | (k', v) :: l' => if String.eqb k k' then Some v else assoc k l'
  end.

(** [tag.get(k)] *)
Definition get (k : string) (n : node) : option string :=
  match n with
  | NavigableString _ => None
  | Tag _ attrs _ => assoc k attrs
  end.

(** [tag[k]] *)
Definition getitem (k : string) (n : node) : result string :=
  match get k n with
  | Some v => Ok v
  | None => Raise (KeyError k)
  end.

(** [tag.string]: the single text below a tag, through single-child
    chains; [None] as soon as a tag has zero or several children. *)
Fixpoint tag_string (n : node) : option string :=
  match n with
  | NavigableString s => Some s
  | Tag _ _ [c] => tag_string c
  | Tag _ _ _ => None
  end.

(** The pieces [get_text(strip=True)] joins: every text below [n],
    stripped, the empty ones dropped. *)
Fixpoint stripped_strings (n : node) : list string :=
  match n with
  | NavigableString s => let t := strip s in if truthy t then [t] else []
  | Tag _ _ cs =>
      (fix go (l : list node) : list string :=
         match l with
         | [] => []
         | c :: l' => (stripped_strings c ++ go l')%list
         end) cs
  end.

(** [n.get_text(strip=True)] *)
Definition get_text_strip (n : node) : string :=
  fold_right String.append EmptyString (stripped_strings n).

(** [n.find_all(names)] and [n.find(name)] *)
Definition find_all (names : list string) (n : node) : list node :=
  List.filter (has_name names) (descendants n).

Definition find (name : string) (n : node) : option node :=
  head (find_all [name] n).

(** [n.find(name, string=f)]: [f] receives [tag.string]. *)
Definition find_by_string (name : string) (f : option string -> bool)
    (n : node) : option node :=
  List.find (fun t => has_name [name] t && f (tag_string t)) (descendants n).

(** [n.find(name, href=f)] and the like: [f] receives [tag.get(k)]. *)
Definition find_by_attr (name k : string) (f : option string -> bool)
    (n : node) : option node :=
  List.find (fun t => has_name [name] t && f (get k t)) (descendants n).

(** Every text below [n] in document order, each with the chain of its
    enclosing tags, innermost first ([element.parents]). *)
Fixpoint strings_with_parents (anc : list node) (n : node)
    : list (string * list node) :=
  match n with
  | NavigableString s => [(s, anc)]
  | Tag _ _ cs =>
      (fix go (l : list node) : list (string * list node) :=
         match l with
         | [] => []
         | c :: l' => (strings_with_parents (n :: anc) c ++ go l')%list
         end) cs
  end.

(** [n.find(string=f)]: the first text node accepted by [f]; the result
    keeps its [parents] so that [find_parent] can be asked of it. *)
Definition find_string (f : option string -> bool) (n : node)
    : option (string * list node) :=
  List.find (fun p => f (Some (fst p))) (strings_with_parents [] n).

(** [element.find_parent(name)]: the nearest enclosing tag called [name]. *)
Definition find_parent (name : string) (parents : list node) : option node :=
  List.find (has_name [name]) parents.

End Soup.

(* ===================================================================== *)
(** ** Effects: a stateful page whose operations may raise *)
(* ===================================================================== *)

(** A computation over a browser state [B]: it ends with a value or with
    a raised exception, and in both cases leaves a browser state behind. *)
Definition Py (B A : Type) : Type := B -> result A * B.

Definition ret {B A} (a : A) : Py B A := fun b => (Ok a, b).

Definition raise {B A} (e : exn) : Py B A := fun b => (Raise e, b).

Definition bind {B A C} (m : Py B A) (k : A -> Py B C) : Py B C :=
  fun b => match m b with
           | (Ok a, b') => k a b'
           | (Raise e, b') => (Raise e, b')
           end.

(** A pure step that may raise. *)
Definition lift {B A} (r : result A) : Py B A := fun b => (r, b).

(** [try: m  except Exception as e: h e] *)
Definition try_except {B A} (m : Py B A) (h : exn -> Py B A) : Py B A :=
  fun b => match m b with
           | (Ok a, b') => (Ok a, b')
           | (Raise e, b') => h e b'
           end.

(** [try: m  finally: f].  An exception of [f] replaces the outcome of [m]. *)
Definition try_finally {B A} (m : Py B A) (f : Py B unit) : Py B A :=
  fun b => match m b with
           | (r, b') => match f b' with
                        | (Ok _, b'') => (r, b'')
                        | (Raise e, b'') => (Raise e, b'')
                        end
           end.

Declare Scope py_scope.
Delimit Scope py_scope with py.
Notation "x <- m ;; k" := (bind m (fun x => k))
  (at level 100, m at next level, right associativity) : py_scope.
Notation "m ;; k" := (bind m (fun _ => k))
  (at level 100, right associativity) : py_scope.

(** The page-access capability ([playwright.async_api.Page] together with
    the browser that owns it).  [content] stands for
    [BeautifulSoup(await page.content(), 'html.parser')]. *)
Record Page (B : Type) : Type := MkPage {
  launch : Py B unit;
  close : Py B unit;
  goto : string -> option Z -> option string -> Py B unit;
  wait_for_selector : string -> Z -> Py B unit;
  content : Py B Soup.node;
  locator_wait_for : string -> string -> Py B unit;
  locator_fill : string -> string -> Py B unit;
  keyboard_press : string -> Py B unit;
  wait_for_timeout : Z -> Py B unit
}.
Arguments launch {B} _.
Arguments close {B} _.
Arguments goto {B} _ _ _ _.
Arguments wait_for_selector {B} _ _ _.
Arguments content {B} _.
Arguments locator_wait_for {B} _ _ _.
Arguments locator_fill {B} _ _ _.
Arguments keyboard_press {B} _ _.
Arguments wait_for_timeout {B} _ _.

(* ===================================================================== *)
(** ** class SGMADocumentHunter *)
(* ===================================================================== *)

Import PyStr Soup.

Definition BASE_URL : string := "https://sgma.water.ca.gov/portal/gspar/submitted".
Definition DOMAIN : string := "https://sgma.water.ca.gov".

(** *** _find_basin_page: the pure parts *)

(** Lines 81-83: the lower-cased texts of the header cells. *)
Definition header_texts (soup : node) : result (list string) :=
  match find "table" soup with
  | None => Raise (AttributeError "'NoneType' object has no attribute 'find'")
  | Some table =>
      let header_row :=
        match find "thead" table with
        | Some thead => find "tr" thead
        | None => find "tr" table
        end in
      match header_row with
      | None => Raise (AttributeError "'NoneType' object has no attribute 'find_all'")
      | Some header_row =>
          Ok ((fun th => lower (get_text_strip th)) <$> find_all ["th"; "td"] header_row)
      end
  end.

(** [next(i for i, h in enumerate(headers) if kw in h)] *)
Definition next_index (kw : string) (headers : list string) : result nat :=
  match list_find (fun h => str_in kw h = true) headers with
  | Some (i, _) => Ok i
  | None => Raise StopIteration
  end.

(** Lines 86-87: the two roles, [basin] first. *)
Definition map_headers (headers : list string) : result (nat * nat) :=
  match next_index "basin" headers with
  | Ok basin_idx =>
      match next_index "year" headers with
      | Ok year_idx => Ok (basin_idx, year_idx)
      | Raise e => Raise e
      end
  | Raise e => Raise e
  end.

(** Line 103: the rows of the filtered table, the first one dropped. *)
Definition result_rows (soup : node) : result (list node) :=
  match find "table" soup with
  | None => Raise (AttributeError "'NoneType' object has no attribute 'find_all'")
  | Some table => Ok (tail (find_all ["tr"] table))
  end.

(** Lines 122-127: the year of a row, from the raw text of its year
    cell; [None] is the [continue] of line 125. *)
Definition parse_year (row_year_text : string) : option Z :=
  match search_d4 row_year_text with
  | None => None
  | Some year_match => Some (int year_match)
  end.

(** The loop variables [best_url], [max_year], [found_name]. *)
Definition best : Type := option string * Z * string.

Definition best_init : best := (None, 0, "").

(** Lines 112-148: one turn of the loop over the rows. *)
Definition scan_row (identifier : string) (basin_idx year_idx : nat)
    (st : best) (row : node) : best :=
  let '(best_url, max_year, found_name) := st in
  let cols := find_all ["td"] row in
  if (length cols <=? Nat.max basin_idx year_idx)%nat then st
  else
    match cols !! basin_idx, cols !! year_idx with
    | Some basin_cell, Some year_cell =>
        let row_basin_text := get_text_strip basin_cell in
        let row_year_text := get_text_strip year_cell in
        if str_in (lower identifier) (lower row_basin_text) then
          match parse_year row_year_text with
          | None => st
          | Some year =>
              match find "a" basin_cell with
              | None => st
              | Some link_tag =>
                  match get "href" link_tag with
                  | None => st
                  | Some href =>
                      if negb (truthy href) then st
                      else if (max_year <=? year)%Z
                           then (Some (DOMAIN +:+ href), year, row_basin_text)
                           else st
                  end
              end
          end
        else st
    | _, _ => st (* excluded by the length test above *)
    end.

(** Lines 107-150: the whole scan. *)
Definition scan_rows (identifier : string) (basin_idx year_idx : nat)
    (rows : list node) : best :=
  fold_left (scan_row identifier basin_idx year_idx) rows best_init.

(** *** _harvest_pdfs: the pure parts *)

(** Line 180: [lambda text: text and target_pattern in text and ".pdf" in text.lower()] *)
Definition text_pattern (year : Z) (text : option string) : bool :=
  let target_pattern := "WY_" +:+ str_of_int year in
  match text with
  | None => false
  | Some text => truthy text && str_in target_pattern text && str_in ".pdf" (lower text)
  end.

(** Line 192: [lambda t: t and "Annual Report PDF" in t] *)
Definition section_header (t : option string) : bool :=
  match t with
  | None => false
  | Some t => truthy t && str_in "Annual Report PDF" t
  end.

(** Line 200: [lambda x: x and "/document/" in x] *)
Definition document_href (x : option string) : bool :=
  match x with
  | None => false
  | Some x => truthy x && str_in "/document/" x
  end.

(** Line 209: [lambda t: t and "GSP" in t and "20" in t] *)
Definition gsp_text (t : option string) : bool :=
  match t with
  | None => false
  | Some t => truthy t && str_in "GSP" t && str_in "20" t
  end.

(** Line 227: [lambda x: x and x.lower().endswith(".pdf")] *)
Definition pdf_href (x : option string) : bool :=
  match x with
  | None => false
  | Some x => truthy x && endswith ".pdf" (lower x)
  end.

(** Lines 169-172: the dictionary [_harvest_pdfs] starts from. *)
Definition docs_init : gmap string pyval :=
  <["annual_report_url" := VNone]> (<["gsp_url" := VNone]> ∅).

(** Line 195: [header.find_parent("div") or header.find_parent("td")] *)
Definition container_of (parents : list node) : option node :=
  match find_parent "div" parents with
  | Some c => Some c
  | None => find_parent "td" parents
  end.

(** Lines 177-204: the annual report, by the text pattern, else by the
    section lookup.  [pdf_link['href']] raises [KeyError] on a tag that
    has no such attribute. *)
Definition find_annual_report (soup : node) (year : Z)
    (docs : gmap string pyval) : result (gmap string pyval) :=
  match find_by_string "a" (text_pattern year) soup with
  | Some pdf_link =>
      match getitem "href" pdf_link with
      | Ok href => Ok (<["annual_report_url" := VStr (DOMAIN +:+ href)]> docs)
      | Raise e => Raise e
      end
  | None =>
      match find_string section_header soup with
      | None => Ok docs
      | Some header =>
          match container_of (snd header) with
          | None => Ok docs
          | Some container =>
              match find_by_attr "a" "href" document_href container with
              | None => Ok docs
              | Some fallback_link =>
                  match getitem "href" fallback_link with
                  | Ok href =>
                      Ok (<["annual_report_url" := VStr (DOMAIN +:+ href)]> docs)
                  | Raise e => Raise e
                  end
              end
          end
      end
  end.

(** Lines 227-229: the first PDF link of the plan sub-page. *)
Definition find_final_pdf (sub_soup : node) (docs : gmap string pyval)
    : result (gmap string pyval) :=
  match find_by_attr "a" "href" pdf_href sub_soup with
  | None => Ok docs
  | Some final_pdf =>
      match getitem "href" final_pdf with
      | Ok href => Ok (<["gsp_url" := VStr (DOMAIN +:+ href)]> docs)
      | Raise e => Raise e
      end
  end.

Section Hunter.
Context {B : Type} (page : Page B).
Local Open Scope py_scope.

(** Lines 94-98: type the identifier in the search box and let the
    table settle. *)
Definition apply_filter (identifier : string) : Py B unit :=
  locator_wait_for page "input[type='search']" "visible" ;;
  locator_fill page "input[type='search']" identifier ;;
  keyboard_press page "Enter" ;;
  wait_for_timeout page 3000.

Definition _find_basin_page (identifier : string) : Py B best :=
  goto page BASE_URL None None ;;
  wait_for_selector page "table" 15000 ;;
  soup <- content page ;;
  headers <- lift (header_texts soup) ;;
  match map_headers headers with
  | Raise StopIteration => ret (None, 0, "")
  | Raise e => raise e
  | Ok (basin_idx, year_idx) =>
      apply_filter identifier ;;
      soup <- content page ;;
      rows <- lift (result_rows soup) ;;
      ret (scan_rows identifier basin_idx year_idx rows)
  end.

(** Lines 160-164: the lenient load of the detail page. *)
Definition load_detail (url : string) : Py B unit :=
  try_except
    (goto page url (Some 60000) (Some "domcontentloaded") ;;
     wait_for_selector page "a" 5000)
    (fun _ => ret tt).

(** Lines 218-229: the hop to the plan sub-page. *)
Definition gsp_hop (sub_page_url : string) (docs : gmap string pyval)
    : Py B (gmap string pyval) :=
  goto page sub_page_url (Some 30000) (Some "domcontentloaded") ;;
  sub_soup <- content page ;;
  lift (find_final_pdf sub_soup docs).

(** Lines 209-233: the plan document. *)
Definition find_gsp (soup : node) (docs : gmap string pyval)
    : Py B (gmap string pyval) :=
  match find_by_string "a" gsp_text soup with
  | None => ret docs
  | Some gsp_link_text =>
      match get "href" gsp_link_text with
      | None => ret docs
      | Some href =>
          if truthy href
          then try_except (gsp_hop (DOMAIN +:+ href) docs) (fun _ => ret docs)
          else ret docs
      end
  end.

Definition _harvest_pdfs (url : string) (year : Z) : Py B (gmap string pyval) :=
  load_detail url ;;
  soup <- content page ;;
  docs <- lift (find_annual_report soup year docs_init) ;;
  find_gsp soup docs.

Definition get_basin_documents (basin_identifier : string)
    : Py B (gmap string pyval) :=
  launch page ;;
  try_finally
    (found <- _find_basin_page basin_identifier ;;
     let '(target_url, latest_year, full_basin_name) := found in
     match target_url with
     | None => ret ∅
     | Some target_url =>
         if negb (truthy target_url) then ret ∅
         else
           documents <- _harvest_pdfs target_url latest_year ;;
           ret (<["latest_year" := VInt latest_year]>
                  (<["basin_name" := VStr full_basin_name]> documents))
     end)
    (close page).

End Hunter.

(* ===================================================================== *)
(** ** What the properties speak about *)
(* ===================================================================== *)

(** *** Years in a cell text *)

(** The four characters of [text] from position [i] on are digits. *)
Definition digits4_at (text : string) (i : nat) (a b c d : ascii) : Prop :=
  String.get i text = Some a ∧ String.get (S i) text = Some b ∧
  String.get (S (S i)) text = Some c ∧ String.get (S (S (S i))) text = Some d ∧
  is_digit a = true ∧ is_digit b = true ∧ is_digit c = true ∧ is_digit d = true.

(** A 4-digit run starts at position [i]. *)
Definition run_at (text : string) (i : nat) : Prop :=
  ∃ a b c d, digits4_at text i a b c d.

Definition value4 (a b c d : ascii) : Z :=
  1000 * digit_value a + 100 * digit_value b + 10 * digit_value c + digit_value d.

(** [y] is the decimal value of the first 4-digit run of [text]. *)
Definition first_run_value (text : string) (y : Z) : Prop :=
  ∃ i a b c d,
    digits4_at text i a b c d ∧ (∀ j, (j < i)%nat → ¬ run_at text j) ∧
    y = value4 a b c d.

(** *** Header roles *)

(** Cell [i] is the leftmost header cell whose text contains [kw],
    letter case ignored. *)
Definition first_match (kw : string) (texts : list string) (i : nat) : Prop :=
  (∃ h, texts !! i = Some h ∧ str_in kw (lower h) = true) ∧
  ∀ j h, (j < i)%nat → texts !! j = Some h → str_in kw (lower h) = false.

(** No header cell contains [kw]. *)
Definition absent (kw : string) (texts : list string) : Prop :=
  ∀ h, h ∈ texts → str_in kw (lower h) = false.

(** *** Candidate rows *)

(** [row] is a valid candidate for [identifier] under the column map
    ([basin_idx], [year_idx]): it has both cells, the text of its basin
    cell is [name] and contains the identifier (letter case ignored), its
    year cell holds a 4-digit run of value [year], and the link of its
    basin cell (the first [a] in the cell) carries the non-empty
    address [href]. *)
Definition candidate (identifier : string) (basin_idx year_idx : nat)
    (row : node) (name : string) (year : Z) (href : string) : Prop :=
  ∃ basin_cell year_cell link,
    find_all ["td"] row !! basin_idx = Some basin_cell ∧
    find_all ["td"] row !! year_idx = Some year_cell ∧
    get_text_strip basin_cell = name ∧
    str_in (lower identifier) (lower name) = true ∧
    first_run_value (get_text_strip year_cell) year ∧
    find "a" basin_cell = Some link ∧
    get "href" link = Some href ∧ href ≠ "".

Definition valid_row (identifier : string) (basin_idx year_idx : nat)
    (row : node) : Prop :=
  ∃ name year href, candidate identifier basin_idx year_idx row name year href.

(** *** Anchors *)

(** [a] is the first tag called [name] below [n], in document order, that
    [accept] accepts. *)
Definition first_tag (name : string) (accept : node -> bool) (n a : node) : Prop :=
  ∃ i, descendants n !! i = Some a ∧ has_name [name] a = true ∧ accept a = true ∧
       ∀ j x, (j < i)%nat → descendants n !! j = Some x →
              has_name [name] x = true → accept x = false.

(** No tag called [name] below [n] is accepted. *)
Definition no_tag (name : string) (accept : node -> bool) (n : node) : Prop :=
  ∀ x, x ∈ descendants n → has_name [name] x = true → accept x = false.

(** [s] is the first text below [n] accepted by [f]; [parents] are the
    tags enclosing it, innermost first. *)
Definition first_text (f : option string -> bool) (n : node)
    (s : string) (parents : list node) : Prop :=
  ∃ i, strings_with_parents [] n !! i = Some (s, parents) ∧ f (Some s) = true ∧
       ∀ j x, (j < i)%nat → strings_with_parents [] n !! j = Some x →
              f (Some (fst x)) = false.

(** [c] is the nearest tag named in [names] among [parents]. *)
Definition nearest (names : list string) (parents : list node) (c : node) : Prop :=
  ∃ i, parents !! i = Some c ∧ has_name names c = true ∧
       ∀ j x, (j < i)%nat → parents !! j = Some x → has_name names x = false.

(** The container of the section lookup: the nearest enclosing [div];
    the nearest enclosing [td] when no [div] encloses the text. *)
Definition enclosing_container (parents : list node) (c : node) : Prop :=
  nearest ["div"] parents c ∨
  ((∀ x, x ∈ parents → has_name ["div"] x = false) ∧ nearest ["td"] parents c).

(** The outcome of the section lookup on a snapshot, case by case. *)
Inductive section_lookup (soup : node) : pyval -> Prop :=
| lookup_no_text :
    (∀ p, p ∈ strings_with_parents [] soup → section_header (Some (fst p)) = false) ->
    section_lookup soup VNone
| lookup_no_container s parents :
    first_text section_header soup s parents ->
    (∀ x, x ∈ parents → has_name ["div"; "td"] x = false) ->
    section_lookup soup VNone
| lookup_no_link s parents c :
    first_text section_header soup s parents ->
    enclosing_container parents c ->
    no_tag "a" (fun a => document_href (get "href" a)) c ->
    section_lookup soup VNone
| lookup_link s parents c a href :
    first_text section_header soup s parents ->
    enclosing_container parents c ->
    first_tag "a" (fun a => document_href (get "href" a)) c a ->
    get "href" a = Some href ->
    section_lookup soup (VStr (DOMAIN +:+ href)).

(** [a] is the anchor the annual-report lookup settles on: the first
    anchor whose text matches the pattern of the year; without any such
    anchor, the first document link of the container of the section
    header. *)
Definition annual_report_anchor (soup : node) (year : Z) (a : node) : Prop :=
  first_tag "a" (fun t => text_pattern year (tag_string t)) soup a ∨
  (no_tag "a" (fun t => text_pattern year (tag_string t)) soup ∧
   ∃ s parents c,
     first_text section_header soup s parents ∧
     enclosing_container parents c ∧
     first_tag "a" (fun t => document_href (get "href" t)) c a).

(** The section lookup as the specification words it: the container is
    the nearest enclosing block-level container, [div] or [td] alike. *)
Definition nearest_block_container (parents : list node) : option node :=
  List.find (has_name ["div"; "td"]) parents.

Definition section_lookup_as_specified (soup : node) : pyval :=
  match find_string section_header soup with
  | None => VNone
  | Some header =>
      match nearest_block_container (snd header) with
      | None => VNone
      | Some container =>
          match find_by_attr "a" "href" document_href container with
          | None => VNone
          | Some link =>
              match get "href" link with
              | Some href => VStr (DOMAIN +:+ href)
              | None => VNone
              end
          end
      end
  end.

(** *** The words of the specification, where they differ from the code *)

(** The visible text of a tag: all the texts below it, joined, whatever
    the markup between them ([get_text()]). *)
Fixpoint visible_text (n : node) : string :=
  match n with
  | NavigableString s => s
  | Tag _ _ cs =>
      (fix go (l : list node) : string :=
         match l with
         | [] => EmptyString
         | c :: l' => visible_text c +:+ go l'
         end) cs
  end.

(** A valid candidate row as the specification words it: the identifier
    is contained in the basin text, the year cell holds a 4-digit year,
    and a hyperlink is present in the basin cell, that is, some anchor of
    the cell carries a non-empty [href], whichever anchor it is. *)
Definition candidate_as_specified (identifier : string) (basin_idx year_idx : nat)
    (row : node) (name : string) (year : Z) (href : string) : Prop :=
  ∃ basin_cell year_cell link,
    find_all ["td"] row !! basin_idx = Some basin_cell ∧
    find_all ["td"] row !! year_idx = Some year_cell ∧
    get_text_strip basin_cell = name ∧
    str_in (lower identifier) (lower name) = true ∧
    first_run_value (get_text_strip year_cell) year ∧
    link ∈ find_all ["a"] basin_cell ∧
    get "href" link = Some href ∧ href ≠ "".

(** *** Runs of the page *)

Section Runs.
Context {B : Type} (page : Page B).
Local Open Scope py_scope.

(** From browser state [b1], the locator reads the listing, maps the
    header to ([basin_idx], [year_idx]), applies the filter and reaches
    the scan of [rows] in state [b3]. *)
Definition listing_scanned (identifier : string) (b1 b3 : B)
    (basin_idx year_idx : nat) (rows : list node) : Prop :=
  ∃ soup1 b2 headers soup2,
    (goto page BASE_URL None None ;;
     wait_for_selector page "table" 15000 ;;
     content page) b1 = (Ok soup1, b2) ∧
    header_texts soup1 = Ok headers ∧
    map_headers headers = Ok (basin_idx, year_idx) ∧
    (apply_filter page identifier ;; content page) b2 = (Ok soup2, b3) ∧
    result_rows soup2 = Ok rows.

(** From browser state [b1], the listing loads and the cells of its
    header row show [texts]; [b2] is the state right after the snapshot. *)
Definition header_read (b1 b2 : B) (texts : list string) : Prop :=
  ∃ soup1,
    (goto page BASE_URL None None ;;
     wait_for_selector page "table" 15000 ;;
     content page) b1 = (Ok soup1, b2) ∧
    header_texts soup1 = Ok (lower <$> texts).

(** From browser state [b0], the detail page at [url] is loaded
    (leniently) and its snapshot [soup] is taken, in state [b1]. *)
Definition detail_read (url : string) (b0 b1 : B) (soup : node) : Prop :=
  (load_detail page url ;; content page) b0 = (Ok soup, b1).

(** From browser state [b1], on the detail snapshot [soup], the hop
    follows the first anchor whose text mentions a plan, reaches the
    sub-page, and [a] is the first anchor of the sub-page whose address
    ends in [.pdf]. *)
Definition plan_anchor (soup : node) (b1 : B) (a : node) : Prop :=
  ∃ gsp_link href sub_soup b2,
    first_tag "a" (fun t => gsp_text (tag_string t)) soup gsp_link ∧
    get "href" gsp_link = Some href ∧ href ≠ "" ∧
    (goto page (DOMAIN +:+ href) (Some 30000) (Some "domcontentloaded") ;;
     content page) b1 = (Ok sub_soup, b2) ∧
    first_tag "a" (fun t => pdf_href (get "href" t)) sub_soup a.

End Runs.

(* ===================================================================== *)
(** ** A simulated portal *)
(* ===================================================================== *)

(** A small, executable page: a site maps addresses to snapshots (an
    address it does not serve is unreachable) and tells what the listing
    shows once a text was typed in its search box.  The browser records
    every address it was sent to. *)
Module Portal.

Record site : Type := MkSite {
  site_page : string -> option node;
  site_filtered : string -> node
}.

Record browser : Type := MkBrowser {
  current : node;
  typed : string;
  visited : list string
}.

Definition sim_goto (s : site) (url : string) : Py browser unit :=
  fun b =>
    match site_page s url with
    | Some n => (Ok tt, MkBrowser n (typed b) (visited b ++ [url]))
    | None =>
        (Raise (Error "net::ERR_CONNECTION_REFUSED"),
         MkBrowser (current b) (typed b) (visited b ++ [url]))
    end.

Definition sim_wait_for_selector (sel : string) : Py browser unit :=
  fun b =>
    match find sel (current b) with
    | Some _ => (Ok tt, b)
    | None => (Raise (TimeoutError "Timeout 15000ms exceeded."), b)
    end.

Definition sim_page (s : site) : Page browser := {|
  launch := ret tt;
  close := ret tt;
  goto := fun url _ _ => sim_goto s url;
  wait_for_selector := fun sel _ => sim_wait_for_selector sel;
  content := fun b => (Ok (current b), b);
  locator_wait_for := fun _ _ => ret tt;
  locator_fill := fun _ text b => (Ok tt, MkBrowser (current b) text (visited b));
  keyboard_press := fun _ b =>
    (Ok tt, MkBrowser (site_filtered s (typed b)) (typed b) (visited b));
  wait_for_timeout := fun _ => ret tt
|}.

Definition blank : browser := MkBrowser (soup []) "" [].

Definition txt (s : string) : node := NavigableString s.
Definition th (s : string) : node := Tag "th" [] [txt s].
Definition td (cs : list node) : node := Tag "td" [] cs.
Definition tr (cs : list node) : node := Tag "tr" [] cs.
Definition div (cs : list node) : node := Tag "div" [] cs.
Definition link (href text : string) : node := Tag "a" [("href", href)] [txt text].
Definition table (header : list node) (rows : list node) : node :=
  Tag "table" [] [Tag "thead" [] [tr header]; Tag "tbody" [] rows].

(** The listing of the end-to-end example: two rows for one basin. *)
Definition row_2023 : node :=
  tr [td [link "/portal/gspar/preview/11" "Basin A (1-001)"];
      td [txt "Submitted"]; td [txt "2023"]].
Definition row_2024 : node :=
  tr [td [link "/portal/gspar/preview/12" "Basin A (1-001)"];
      td [txt "Submitted"]; td [txt "2024 (Draft)"]].
Definition row_other : node :=
  tr [td [link "/portal/gspar/preview/20" "Basin B (1-002)"];
      td [txt "Submitted"]; td [txt "2025"]].
Definition row_undated : node :=
  tr [td [link "/portal/gspar/preview/13" "Basin A (1-001)"];
      td [txt "Submitted"]; td [txt "pending"]].

Definition listing : node :=
  soup [table [th "Basin"; th "Status"; th "Year"] [row_2023; row_other; row_2024]].

(** A listing in which two rows of the basin carry the latest year. *)
Definition listing_tie : node :=
  soup [table [th "Year"; th "Basin Name"]
          [tr [td [txt "2024 (Draft)"]; td [link "/portal/gspar/preview/12" "Basin A (1-001)"]];
           tr [td [txt "2025"]; td [link "/portal/gspar/preview/20" "Basin B (1-002)"]];
           tr [td [txt "2023"]; td [link "/portal/gspar/preview/11" "Basin A (1-001)"]];
           tr [td [txt "2024"]; td [link "/portal/gspar/preview/14" "Basin A (1-001)"]];
           tr [td [txt "pending"]; td [link "/portal/gspar/preview/15" "Basin A (1-001)"]]]].

(** The same listing when its header has no year column. *)
Definition listing_unmapped : node :=
  soup [table [th "Basin"; th "Status"; th "Period"] [row_2023; row_2024]].

(** A page on which no table ever shows up. *)
Definition listing_blank : node := soup [div [txt "Loading..."]].

(** Detail pages. *)
Definition detail_text_match : node :=
  soup [div [txt "Annual Report PDF(s)";
             link "/document/9" "Cover letter";
             link "/document/555" "3-001_WY_2024.pdf"];
        link "/portal/gsp/preview/7" "GSP 2022"].

Definition detail_section : node :=
  soup [div [txt "Annual Report PDF(s)"; div [link "/document/9" "Report"]];
        Tag "a" [("name", "plan")] [txt "GSP 2020"]].

Definition detail_nested : node :=
  soup [div [link "/document/0" "Older upload";
             Tag "table" []
               [tr [td [txt "Annual Report PDF(s)"; link "/document/1" "Report"]]]]].

Definition detail_no_href : node :=
  soup [div [Tag "a" [("class", "file")] [txt "3-001_WY_2024.pdf"];
             link "/document/555" "3-001_WY_2024.pdf"]].

Definition plan : node :=
  soup [link "/portal/gsp/about" "About"; link "/service/document/Plan.PDF" "Plan"].

Definition serve (listing_page detail_page : node) (sub : option node) : site := {|
  site_page := fun url =>
    if String.eqb url BASE_URL then Some listing_page
    else if String.eqb url "https://sgma.water.ca.gov/portal/gspar/preview/12"
    then Some detail_page
    else if String.eqb url "https://sgma.water.ca.gov/portal/gsp/preview/7"
    then sub
    else None;
  site_filtered := fun _ => listing_page
|}.

(** A listing whose latest row has its hyperlink after a named anchor. *)
Definition row_second_anchor : node :=
  tr [td [Tag "a" [("name", "b1-001")] []; link "/portal/gspar/preview/12" "Basin A (1-001)"];
      td [txt "Submitted"]; td [txt "2024"]].

Definition listing_second_anchor : node :=
  soup [table [th "Basin"; th "Status"; th "Year"] [row_2023; row_second_anchor]].

(** A detail page whose first plan anchor shows its text in two pieces
    and has no address, followed by a plain plan link. *)
Definition split_anchor : node :=
  Tag "a" [("class", "label")] [Tag "b" [] [txt "GSP"]; txt " 2020"].

Definition detail_split_text : node :=
  soup [div [split_anchor]; link "/portal/gsp/preview/7" "GSP 2022"].

End Portal.

(* ===================================================================== *)
(** ** Properties *)
(* ===================================================================== *)

(** *** Running computations *)

Section RunLemmas.
Context {B A C : Type}.

Lemma bind_Ok (m : Py B A) (k : A -> Py B C) b a b' :
  m b = (Ok a, b') -> bind m k b = k a b'.
Proof. intros H. unfold bind. by rewrite H. Qed.

Lemma bind_Raise (m : Py B A) (k : A -> Py B C) b e b' :
  m b = (Raise e, b') -> bind m k b = (Raise e, b').
Proof. intros H. unfold bind. by rewrite H. Qed.

Lemma bind_Ok_inv (m : Py B A) (k : A -> Py B C) b c b'' :
  bind m k b = (Ok c, b'') ->
  ∃ a b', m b = (Ok a, b') ∧ k a b' = (Ok c, b'').
Proof.
  unfold bind. destruct (m b) as [[a|e] b'] eqn:E; intros H.
  - by exists a, b'.
  - discriminate.
Qed.

End RunLemmas.

(** Splits a hypothesis on a successful run of [m ;; k] in two. *)
Tactic Notation "run_inv" hyp(H) :=
  let a := fresh "a" in
  let b := fresh "b" in
  let H1 := fresh H in
  apply bind_Ok_inv in H as (a & b & H1 & H).

Tactic Notation "run_inv" hyp(H) "as" ident(x) ident(b) ident(H1) :=
  apply bind_Ok_inv in H as (x & b & H1 & H).

(** *** The model of strings and snapshots *)

Lemma prefix_app needle hay :
  String.prefix needle hay = true ↔ ∃ post, hay = needle +:+ post.
Proof.
  revert hay. induction needle as [|c needle IH]; intros hay.
  - destruct hay; (split; [by eexists|done]).
  - destruct hay as [|c' hay]; simpl.
    + split; [done|]. by intros [post ?].
    + destruct (Ascii.ascii_dec c c') as [->|Hne].
      * rewrite IH. split; intros [post Hpost]; exists post.
        -- simpl. by rewrite Hpost.
        -- simpl in Hpost. by injection Hpost.
      * split; [done|]. intros [post Hpost]. simpl in Hpost.
        injection Hpost as ? ?. by subst.
Qed.

(** [needle in hay] holds exactly when [hay] is some text, then
    [needle], then some text. *)
Lemma str_in_spec needle hay :
  str_in needle hay = true ↔ ∃ pre post, hay = pre +:+ needle +:+ post.
Proof.
  induction hay as [|c hay IH]; cbn [str_in].
  - destruct (String.prefix needle "") eqn:E.
    + split; [|done]. intros _. apply prefix_app in E as [post ->]. by exists "", post.
    + split; [done|]. intros (pre & post & H). exfalso.
      destruct pre; [|discriminate]. simpl in H.
      assert (String.prefix needle "" = true) by (apply prefix_app; by exists post).
      congruence.
  - destruct (String.prefix needle (String c hay)) eqn:E.
    + split; [|done]. intros _. apply prefix_app in E as [post ->]. by exists "", post.
    + rewrite IH. split.
      * intros (pre & post & ->). by exists (String c pre), post.
      * intros (pre & post & H). destruct pre as [|c' pre].
        -- simpl in H. assert (String.prefix needle (String c hay) = true)
             by (apply prefix_app; by exists post). congruence.
        -- injection H as -> ->. by exists pre, post.
Qed.

(** [s.endswith(suffix)] holds exactly when [s] is some text followed
    by [suffix]. *)
Lemma endswith_spec suffix s :
  endswith suffix s = true ↔ ∃ pre, s = pre +:+ suffix.
Proof.
  induction s as [|c s IH]; cbn [endswith].
  - destruct (String.eqb_spec suffix "") as [->|Hne].
    + split; [|done]. by exists "".
    + split; [done|]. intros [pre H]. destruct pre; [by simpl in H|discriminate].
  - destruct (String.eqb_spec suffix (String c s)) as [->|Hne].
    + split; [|done]. by exists "".
    + rewrite IH. split.
      * intros [pre ->]. by exists (String c pre).
      * intros [pre H]. destruct pre as [|c' pre]; [by simpl in H|].
        injection H as -> ->. by exists pre.
Qed.

(** Induction on parse trees, with the hypothesis on every child. *)
Lemma node_forall_ind (P : node -> Prop) :
  (∀ s, P (NavigableString s)) ->
  (∀ name attrs contents, Forall P contents → P (Tag name attrs contents)) ->
  ∀ n, P n.
Proof.
  intros Hstring Htag. fix IH 1. intros [s|name attrs contents]; [apply Hstring|].
  apply Htag. induction contents as [|c contents IHc]; constructor; [apply IH|apply IHc].
Qed.

Lemma descendants_Tag name attrs contents x :
  x ∈ descendants (Tag name attrs contents) ↔
  ∃ c, c ∈ contents ∧ (x = c ∨ x ∈ descendants c).
Proof.
  cbn [descendants]. induction contents as [|c contents IH].
  - split; [by intros ?%elem_of_nil|]. by intros (c & ?%elem_of_nil & _).
  - rewrite elem_of_cons, elem_of_app, IH. split.
    + intros [->|[Hx|(c' & Hc' & Hx)]].
      * exists c. split; [apply elem_of_cons; by left|by left].
      * exists c. split; [apply elem_of_cons; by left|by right].
      * exists c'. split; [apply elem_of_cons; by right|done].
    + intros (c' & [->|Hc']%elem_of_cons & Hx).
      * destruct Hx; [by left|right; by left].
      * right. right. by exists c'.
Qed.

Lemma strings_with_parents_Tag anc name attrs contents x :
  x ∈ strings_with_parents anc (Tag name attrs contents) ↔
  ∃ c, c ∈ contents ∧ x ∈ strings_with_parents (Tag name attrs contents :: anc) c.
Proof.
  cbn [strings_with_parents]. generalize (Tag name attrs contents :: anc). intros anc'.
  induction contents as [|c contents IH].
  - split; [by intros ?%elem_of_nil|]. by intros (c & ?%elem_of_nil & _).
  - rewrite elem_of_app, IH. split.
    + intros [Hx|(c' & Hc' & Hx)].
      * exists c. split; [apply elem_of_cons; by left|done].
      * exists c'. split; [apply elem_of_cons; by right|done].
    + intros (c' & [->|Hc']%elem_of_cons & Hx); [by left|].
      right. by exists c'.
Qed.

(** The parents reported for a text are the tags given at the start,
    preceded by tags that do enclose the text. *)
Lemma strings_with_parents_enclosing n :
  ∀ anc s parents,
    (s, parents) ∈ strings_with_parents anc n →
    (n = NavigableString s ∨ NavigableString s ∈ descendants n) ∧
    ∃ inner, parents = (inner ++ anc)%list ∧
             ∀ p, p ∈ inner → NavigableString s ∈ descendants p.
Proof.
  induction n as [s'|name attrs contents IH] using node_forall_ind;
    intros anc s parents.
  - intros [= -> ->]%list_elem_of_singleton. split; [by left|].
    exists []. split; [done|]. by intros p ?%elem_of_nil.
  - intros (c & Hc & Hs)%strings_with_parents_Tag.
    rewrite Forall_forall in IH.
    destruct (IH c Hc _ _ _ Hs) as (Hin & inner & -> & Hinner).
    assert (NavigableString s ∈ descendants (Tag name attrs contents)) as Hhere.
    { apply descendants_Tag. exists c. split; [done|].
      destruct Hin as [->|Hin]; [by left|by right]. }
    split; [by right|].
    exists (inner ++ [Tag name attrs contents])%list.
    split; [by rewrite <- app_assoc|].
    intros p [Hp|Hp%list_elem_of_singleton]%elem_of_app; [by apply Hinner|].
    by subst p.
Qed.

(** In particular, the parents of a text found in a snapshot all
    enclose it. *)
Lemma find_string_parents f n s parents :
  find_string f n = Some (s, parents) ->
  ∀ p, p ∈ parents → NavigableString s ∈ descendants p.
Proof.
  intros Hfind%find_some. destruct Hfind as [Hin%list_elem_of_In _].
  apply strings_with_parents_enclosing in Hin as (_ & inner & -> & Hinner).
  rewrite app_nil_r. apply Hinner.
Qed.

Example get_text_strip_joins :
  get_text_strip (Tag "td" [] [NavigableString "  2024 ";
                               Tag "i" [] [NavigableString "(Draft) "];
                               NavigableString "   "])
  = "2024(Draft)".
Proof. reflexivity. Qed.

Example tag_string_of_single_chain :
  tag_string (Tag "a" [] [Tag "b" [] [NavigableString "GSP 2022"]]) = Some "GSP 2022".
Proof. reflexivity. Qed.

Example tag_string_of_mixed_content :
  tag_string (Tag "a" [] [Tag "b" [] [NavigableString "GSP"]; NavigableString " 2022"])
  = None.
Proof. reflexivity. Qed.

Example text_pattern_case :
  text_pattern 2024 (Some "3-001_WY_2024.PDF") = true ∧
  text_pattern 2024 (Some "3-001_wy_2024.pdf") = false ∧
  text_pattern 24 (Some "x_WY_24.pdf") = true.
Proof. by split_and!. Qed.

(** *** Year parsing *)

Lemma get_S c text i : String.get (S i) (String c text) = String.get i text.
Proof. reflexivity. Qed.

Lemma digits4_at_S x text i a b c d :
  digits4_at (String x text) (S i) a b c d ↔ digits4_at text i a b c d.
Proof. unfold digits4_at. by rewrite !get_S. Qed.

Lemma run_at_S x text i : run_at (String x text) (S i) ↔ run_at text i.
Proof.
  unfold run_at. split; intros (a & b & c & d & H); exists a, b, c, d;
    by apply (digits4_at_S x).
Qed.

Lemma match_d4_Some text g :
  match_d4 text = Some g ->
  ∃ a b c d, digits4_at text 0 a b c d ∧
             g = String a (String b (String c (String d EmptyString))).
Proof.
  destruct text as [|a [|b [|c [|d rest]]]]; simpl; try discriminate.
  destruct (is_digit a) eqn:Ha, (is_digit b) eqn:Hb,
    (is_digit c) eqn:Hc, (is_digit d) eqn:Hd; simpl; try discriminate.
  intros [= <-]. exists a, b, c, d. by repeat split.
Qed.

Lemma match_d4_None text : match_d4 text = None -> ¬ run_at text 0.
Proof.
  intros H (a & b & c & d & Ha & Hb & Hc & Hd & Da & Db & Dc & Dd).
  destruct text as [|a' [|b' [|c' [|d' rest]]]]; simpl in *; try discriminate.
  simplify_eq. by rewrite Da, Db, Dc, Dd in H.
Qed.

Lemma int_4 a b c d :
  int (String a (String b (String c (String d EmptyString)))) = value4 a b c d.
Proof. unfold int, value4. simpl. lia. Qed.

Lemma search_d4_Some text g :
  search_d4 text = Some g ->
  ∃ i a b c d, digits4_at text i a b c d ∧ (∀ j, (j < i)%nat → ¬ run_at text j) ∧
               g = String a (String b (String c (String d EmptyString))).
Proof.
  induction text as [|x text IH]; [discriminate|].
  cbn [search_d4]. destruct (match_d4 (String x text)) as [g'|] eqn:E.
  - intros [= <-]. apply match_d4_Some in E as (a & b & c & d & H & ->).
    exists 0%nat, a, b, c, d. split_and!; [done|lia|done].
  - intros H. apply IH in H as (i & a & b & c & d & H & Hmin & ->).
    exists (S i), a, b, c, d. split_and!; [by apply digits4_at_S| |done].
    intros [|j] Hj; [by apply match_d4_None|].
    rewrite run_at_S. apply Hmin. lia.
Qed.

Lemma search_d4_None text : search_d4 text = None -> ∀ i, ¬ run_at text i.
Proof.
  induction text as [|x text IH].
  - intros _ i (a & b & c & d & H & _). by destruct i.
  - cbn [search_d4]. destruct (match_d4 (String x text)) eqn:E; [discriminate|].
    intros H [|i]; [by apply match_d4_None|].
    rewrite run_at_S. by apply IH.
Qed.

Lemma first_run_value_unique text y y' :
  first_run_value text y -> first_run_value text y' -> y = y'.
Proof.
  intros (i & a & b & c & d & H & Hmin & ->) (i' & a' & b' & c' & d' & H' & Hmin' & ->).
  assert (i = i') as <-.
  { destruct (Nat.lt_trichotomy i i') as [Hlt|[->|Hlt]]; [|done|].
    - destruct (Hmin' i Hlt). by exists a, b, c, d.
    - destruct (Hmin i' Hlt). by exists a', b', c', d'. }
  destruct H as (Ha & Hb & Hc & Hd & _), H' as (Ha' & Hb' & Hc' & Hd' & _).
  congruence.
Qed.

Lemma parse_year_Some text y : parse_year text = Some y ↔ first_run_value text y.
Proof.
  unfold parse_year. split.
  - destruct (search_d4 text) as [g|] eqn:E; [|discriminate].
    intros [= <-]. apply search_d4_Some in E as (i & a & b & c & d & H & Hmin & ->).
    exists i, a, b, c, d. by rewrite int_4.
  - intros Hy. destruct (search_d4 text) as [g|] eqn:E.
    + f_equal. apply (first_run_value_unique text); [|done].
      apply search_d4_Some in E as (i & a & b & c & d & H & Hmin & ->).
      exists i, a, b, c, d. by rewrite int_4.
    + destruct Hy as (i & a & b & c & d & H & _).
      destruct (search_d4_None _ E i). by exists a, b, c, d.
Qed.

Lemma parse_year_None text : parse_year text = None ↔ ∀ i, ¬ run_at text i.
Proof.
  unfold parse_year. split.
  - destruct (search_d4 text) eqn:E; [discriminate|]. intros _. by apply search_d4_None.
  - intros Hno. destruct (search_d4 text) as [g|] eqn:E; [|done].
    apply search_d4_Some in E as (i & a & b & c & d & H & _).
    destruct (Hno i). by exists a, b, c, d.
Qed.

Lemma digit_value_range c : is_digit c = true -> 0 <= digit_value c <= 9.
Proof.
  unfold is_digit, digit_value. intros H.
  apply andb_prop in H as [H1 H2].
  apply N.leb_le in H1, H2. lia.
Qed.

Lemma first_run_value_range text y : first_run_value text y -> 0 <= y <= 9999.
Proof.
  intros (i & a & b & c & d & (_ & _ & _ & _ & Da & Db & Dc & Dd) & _ & ->).
  apply digit_value_range in Da, Db, Dc, Dd. unfold value4. lia.
Qed.

(** *** First matches in a list *)

Lemma find_Some_first {A} (p : A -> bool) (l : list A) (x : A) :
  List.find p l = Some x ↔
  ∃ i, l !! i = Some x ∧ p x = true ∧
       ∀ j y, (j < i)%nat → l !! j = Some y → p y = false.
Proof.
  induction l as [|z l IH]; simpl.
  - split; [discriminate|]. by intros (i & ? & _).
  - destruct (p z) eqn:Ez.
    + split.
      * intros [= ->]. exists 0%nat. split_and!; [done..|lia].
      * intros ([|i] & Hi & Hx & Hmin); [by simplify_eq/=|].
        specialize (Hmin 0%nat z). simpl in Hmin.
        rewrite Hmin in Ez; [done|lia|done].
    + rewrite IH. split.
      * intros (i & Hi & Hx & Hmin). exists (S i). split_and!; [done..|].
        intros [|j] y Hj Hy; simplify_eq/=; [done|]. apply (Hmin j); [lia|done].
      * intros ([|i] & Hi & Hx & Hmin); simplify_eq/=; [congruence|].
        exists i. split_and!; [done..|].
        intros j y Hj Hy. apply (Hmin (S j)); [lia|done].
Qed.

Lemma find_None_all {A} (p : A -> bool) (l : list A) :
  List.find p l = None ↔ ∀ x, x ∈ l → p x = false.
Proof.
  induction l as [|z l IH]; simpl.
  - split; [|done]. intros _ x Hx. by apply elem_of_nil in Hx.
  - destruct (p z) eqn:Ez.
    + split; [discriminate|]. intros H. rewrite H in Ez; [done|]. apply elem_of_cons; by left.
    + rewrite IH. split.
      * intros H x [->|Hx]%elem_of_cons; [done|by apply H].
      * intros H x Hx. apply H, elem_of_cons. by right.
Qed.

Lemma find_by_string_first name f n a :
  find_by_string name f n = Some a ↔ first_tag name (fun t => f (tag_string t)) n a.
Proof.
  unfold find_by_string, first_tag. rewrite find_Some_first.
  split.
  - intros (i & Hi & [? ?]%andb_prop & Hmin). exists i. split_and!; [done..|].
    intros j x Hj Hx Hn. specialize (Hmin j x Hj Hx). by rewrite Hn in Hmin.
  - intros (i & Hi & Hn & Ha & Hmin). exists i.
    split_and!; [done|by rewrite Hn, Ha|].
    intros j x Hj Hx. destruct (has_name [name] x) eqn:En; [|done].
    simpl. by apply (Hmin j).
Qed.

Lemma find_by_string_none name f n :
  find_by_string name f n = None ↔ no_tag name (fun t => f (tag_string t)) n.
Proof.
  unfold find_by_string, no_tag. rewrite find_None_all.
  split; intros H x Hx.
  - intros Hn. specialize (H x Hx). by rewrite Hn in H.
  - destruct (has_name [name] x) eqn:En; [|done]. simpl. by apply H.
Qed.

Lemma find_by_attr_first name k f n a :
  find_by_attr name k f n = Some a ↔ first_tag name (fun t => f (get k t)) n a.
Proof.
  unfold find_by_attr, first_tag. rewrite find_Some_first.
  split.
  - intros (i & Hi & [? ?]%andb_prop & Hmin). exists i. split_and!; [done..|].
    intros j x Hj Hx Hn. specialize (Hmin j x Hj Hx). by rewrite Hn in Hmin.
  - intros (i & Hi & Hn & Ha & Hmin). exists i.
    split_and!; [done|by rewrite Hn, Ha|].
    intros j x Hj Hx. destruct (has_name [name] x) eqn:En; [|done].
    simpl. by apply (Hmin j).
Qed.

Lemma find_by_attr_none name k f n :
  find_by_attr name k f n = None ↔ no_tag name (fun t => f (get k t)) n.
Proof.
  unfold find_by_attr, no_tag. rewrite find_None_all.
  split; intros H x Hx.
  - intros Hn. specialize (H x Hx). by rewrite Hn in H.
  - destruct (has_name [name] x) eqn:En; [|done]. simpl. by apply H.
Qed.

Lemma find_string_first f n s parents :
  find_string f n = Some (s, parents) ↔ first_text f n s parents.
Proof. unfold find_string, first_text. by rewrite find_Some_first. Qed.

Lemma find_string_none f n :
  find_string f n = None ↔
  ∀ p, p ∈ strings_with_parents [] n → f (Some (fst p)) = false.
Proof. unfold find_string. by rewrite find_None_all. Qed.

Lemma find_parent_nearest name parents c :
  find_parent name parents = Some c ↔ nearest [name] parents c.
Proof. unfold find_parent, nearest. by rewrite find_Some_first. Qed.

Lemma find_parent_none name parents :
  find_parent name parents = None ↔ ∀ x, x ∈ parents → has_name [name] x = false.
Proof. unfold find_parent. by rewrite find_None_all. Qed.

Lemma truthy_nonempty s : truthy s = true ↔ s ≠ "".
Proof. by destruct s. Qed.

(** *** Header roles *)

Lemma next_index_first kw texts i :
  first_match kw texts i -> next_index kw (lower <$> texts) = Ok i.
Proof.
  intros [(h & Hi & Hh) Hmin]. unfold next_index.
  destruct (list_find _ _) as [[j x]|] eqn:E.
  - apply list_find_Some in E as (Hj & Hx & Hminj).
    rewrite list_lookup_fmap in Hj.
    destruct (texts !! j) as [hj|] eqn:Ej; simplify_eq/=.
    destruct (Nat.lt_trichotomy i j) as [Hlt|[->|Hlt]]; [|done|].
    + destruct (Hminj i (lower h)); [|done..].
      by rewrite list_lookup_fmap, Hi.
    + rewrite (Hmin j hj) in Hx; done.
  - apply list_find_None in E. rewrite Forall_forall in E.
    destruct (E (lower h)); [|done].
    apply list_elem_of_fmap. exists h. split; [done|].
    by apply list_elem_of_lookup_2 in Hi.
Qed.

Lemma next_index_absent kw texts :
  absent kw texts -> next_index kw (lower <$> texts) = Raise StopIteration.
Proof.
  intros Habs. unfold next_index.
  destruct (list_find _ _) as [[j x]|] eqn:E; [|done].
  apply list_find_Some in E as (Hj & Hx & _).
  rewrite list_lookup_fmap in Hj.
  destruct (texts !! j) as [hj|] eqn:Ej; simplify_eq/=.
  rewrite Habs in Hx; [done|]. by apply list_elem_of_lookup_2 in Ej.
Qed.

Lemma next_index_cases kw texts :
  (∃ i, first_match kw texts i) ∨ absent kw texts.
Proof.
  destruct (list_find (fun h => str_in kw h = true) (lower <$> texts))
    as [[i x]|] eqn:E.
  - left. exists i. apply list_find_Some in E as (Hi & Hx & Hmin).
    rewrite list_lookup_fmap in Hi.
    destruct (texts !! i) as [h|] eqn:Ei; simplify_eq/=.
    split; [by exists h|]. intros j hj Hj Hhj.
    apply not_true_is_false. apply (Hmin j); [|done].
    by rewrite list_lookup_fmap, Hhj.
  - right. apply list_find_None in E. rewrite Forall_forall in E.
    intros h Hh. apply not_true_is_false. apply E.
    apply list_elem_of_fmap. by exists h.
Qed.

Lemma map_headers_absent texts :
  absent "basin" texts ∨ absent "year" texts ->
  map_headers (lower <$> texts) = Raise StopIteration.
Proof.
  intros [H|H]; unfold map_headers.
  - by rewrite (next_index_absent _ _ H).
  - rewrite (next_index_absent "year" _ H).
    destruct (next_index_cases "basin" texts) as [[i Hi]|Hb].
    + by rewrite (next_index_first _ _ _ Hi).
    + by rewrite (next_index_absent _ _ Hb).
Qed.

(** *** Scanning the rows *)

Section Scan.
Context (identifier : string) (basin_idx year_idx : nat).

Local Abbreviation cand := (candidate identifier basin_idx year_idx).
Local Abbreviation valid := (valid_row identifier basin_idx year_idx).
Local Abbreviation step := (scan_row identifier basin_idx year_idx).

(** One turn of the loop: a row that is no candidate changes nothing; a
    candidate replaces the tracked row exactly when its year is not
    below the tracked maximum. *)
Lemma scan_row_spec u m n row :
  (¬ valid row ∧ step (u, m, n) row = (u, m, n)) ∨
  (∃ name y href,
      cand row name y href ∧
      step (u, m, n) row =
        if m <=? y then (Some (DOMAIN +:+ href), y, name) else (u, m, n)).
Proof.
  unfold scan_row.
  destruct (length _ <=? _)%nat eqn:Elen.
  { left. split; [|done].
    intros (name & y & href & bc & yc & lk & Hb & Hy & _).
    apply lookup_lt_Some in Hb, Hy. apply Nat.leb_le in Elen. lia. }
  destruct (find_all ["td"] row !! basin_idx) as [bc|] eqn:Eb; cycle 1.
  { left. split; [|done].
    intros (name & y & href & bc & yc & lk & Hb & _). congruence. }
  destruct (find_all ["td"] row !! year_idx) as [yc|] eqn:Ey; cycle 1.
  { left. split; [|done].
    intros (name & y & href & bc' & yc & lk & _ & Hy & _). congruence. }
  destruct (str_in _ _) eqn:Ein; cycle 1.
  { left. split; [|done].
    intros (name & y & href & bc' & yc' & lk & Hb & _ & <- & Hin & _).
    congruence. }
  destruct (parse_year _) as [y|] eqn:Eyear; cycle 1.
  { left. split; [|done].
    intros (name & y & href & bc' & yc' & lk & _ & Hy & _ & _ & Hrun & _).
    apply parse_year_Some in Hrun. congruence. }
  destruct (find "a" bc) as [lk|] eqn:Elk; cycle 1.
  { left. split; [|done].
    intros (name & y' & href & bc' & yc' & lk & Hb & _ & _ & _ & _ & Hlk & _).
    congruence. }
  destruct (get "href" lk) as [href|] eqn:Ehref; cycle 1.
  { left. split; [|done].
    intros (name & y' & href & bc' & yc' & lk' & Hb & _ & _ & _ & _ & Hlk & Hh & _).
    congruence. }
  destruct (truthy href) eqn:Etr; simpl; cycle 1.
  { left. split; [|done].
    intros (name & y' & href' & bc' & yc' & lk' & Hb & _ & _ & _ & _ & Hlk & Hh & Hne).
    apply truthy_nonempty in Hne. congruence. }
  right. exists (get_text_strip bc), y, href. split; [|done].
  exists bc, yc, lk. split_and!; try done.
  - by apply parse_year_Some.
  - by apply truthy_nonempty.
Qed.

Lemma scan_rows_bound rows y u m n :
  (∀ row name y' href, row ∈ rows → cand row name y' href → y' <= y) ->
  m <= y ->
  snd (fst (fold_left step rows (u, m, n))) <= y.
Proof.
  revert u m n. induction rows as [|row rows IH]; intros u m n Hall Hm; [done|].
  cbn [fold_left]. destruct (scan_row_spec u m n row)
    as [[_ ->]|(name & y' & href & Hc & ->)].
  - apply IH; [|done]. intros r ? ? ? Hr. apply Hall, elem_of_cons. by right.
  - assert (y' <= y) by (eapply Hall; [apply elem_of_cons; by left|done]).
    destruct (m <=? y').
    + apply IH; [|done]. intros r ? ? ? Hr. apply Hall, elem_of_cons. by right.
    + apply IH; [|done]. intros r ? ? ? Hr. apply Hall, elem_of_cons. by right.
Qed.

Lemma scan_rows_stable rows u m n :
  (∀ row name y' href, row ∈ rows → cand row name y' href → y' < m) ->
  fold_left step rows (u, m, n) = (u, m, n).
Proof.
  induction rows as [|row rows IH]; intros Hall; [done|].
  cbn [fold_left]. destruct (scan_row_spec u m n row)
    as [[_ ->]|(name & y' & href & Hc & ->)].
  - apply IH. intros r ? ? ? Hr. apply Hall, elem_of_cons. by right.
  - assert (y' < m) by (eapply Hall; [apply elem_of_cons; by left|done]).
    destruct (m <=? y') eqn:E; [apply Z.leb_le in E; lia|].
    apply IH. intros r ? ? ? Hr. apply Hall, elem_of_cons. by right.
Qed.

Lemma scan_rows_invalid rows st :
  (∀ row, row ∈ rows → ¬ valid row) ->
  fold_left step rows st = st.
Proof.
  destruct st as [[u m] n].
  induction rows as [|row rows IH]; intros Hall; [done|].
  cbn [fold_left]. destruct (scan_row_spec u m n row)
    as [[_ ->]|(name & y' & href & Hc & _)].
  - apply IH. intros r Hr. apply Hall, elem_of_cons. by right.
  - destruct (Hall row); [apply elem_of_cons; by left|]. by exists name, y', href.
Qed.

Lemma candidate_unique row name y href name' y' href' :
  cand row name y href -> cand row name' y' href' ->
  name' = name ∧ y' = y ∧ href' = href.
Proof.
  intros (bc & yc & lk & Hb & Hy & Hn & _ & Hrun & Hlk & Hh & _)
         (bc' & yc' & lk' & Hb' & Hy' & Hn' & _ & Hrun' & Hlk' & Hh' & _).
  simplify_eq. split_and!; [done| |done].
  by eapply first_run_value_unique.
Qed.

Lemma candidate_year_range row name y href : cand row name y href -> 0 <= y <= 9999.
Proof.
  intros (_ & yc & _ & _ & _ & _ & _ & Hrun & _).
  by apply first_run_value_range in Hrun.
Qed.

Lemma DOMAIN_inj h h' : DOMAIN +:+ h = DOMAIN +:+ h' -> h = h'.
Proof. intros H. cbv in H. by injection H. Qed.

(** A row is a candidate exactly when, scanned first, it is taken. *)
Lemma candidate_scan_first row name y href :
  cand row name y href ↔
  step best_init row = (Some (DOMAIN +:+ href), y, name).
Proof.
  unfold best_init. split.
  - intros Hc. destruct (scan_row_spec None 0 "" row)
      as [[Hno _]|(name' & y' & href' & Hc' & ->)].
    { destruct Hno. by exists name, y, href. }
    destruct (candidate_unique _ _ _ _ _ _ _ Hc Hc') as (-> & -> & ->).
    apply candidate_year_range in Hc as [Hy%Z.leb_le _]. by rewrite Hy.
  - destruct (scan_row_spec None 0 "" row)
      as [[_ ->]|(name' & y' & href' & Hc' & ->)]; [done|].
    destruct (0 <=? y'); [|done].
    intros H.
    pose proof (f_equal (fun t => default "" (fst (fst t))) H) as Hurl.
    pose proof (f_equal (fun t => snd (fst t)) H) as Hy.
    pose proof (f_equal snd H) as Hn.
    simpl in Hurl, Hy, Hn. apply DOMAIN_inj in Hurl. by subst.
Qed.

(** The scan returns the last of the candidates of maximal year. *)
Lemma scan_rows_latest rows k row name y href :
  rows !! k = Some row ->
  cand row name y href ->
  (∀ j r n' y' h', rows !! j = Some r → cand r n' y' h' → y' <= y) ->
  (∀ j r n' y' h', rows !! j = Some r → (k < j)%nat → cand r n' y' h' → y' < y) ->
  scan_rows identifier basin_idx year_idx rows = (Some (DOMAIN +:+ href), y, name).
Proof.
  intros Hk Hc Hmax Hlater. unfold scan_rows.
  rewrite <- (take_drop_middle rows k row Hk), fold_left_app. cbn [fold_left].
  destruct (fold_left step (take k rows) best_init) as [[u m] n] eqn:Epre.
  assert (m <= y) as Hm.
  { change m with (snd (fst (u, m, n))). rewrite <- Epre.
    apply scan_rows_bound.
    - intros r n' y' h' [j Hj]%list_elem_of_lookup Hr.
      apply lookup_take_Some in Hj as [Hj _]. by eapply Hmax.
    - apply candidate_year_range in Hc. lia. }
  destruct (scan_row_spec u m n row)
    as [[Hno _]|(name' & y' & href' & Hc' & ->)].
  { destruct Hno. by exists name, y, href. }
  destruct (candidate_unique _ _ _ _ _ _ _ Hc Hc') as (-> & -> & ->).
  apply Z.leb_le in Hm. rewrite Hm.
  apply scan_rows_stable.
  intros r n' y' h' [j Hj]%list_elem_of_lookup Hr.
  rewrite lookup_drop in Hj. eapply (Hlater (S k + j)%nat); [done|lia|done].
Qed.

(** The address the scan returns, when there is one, starts with the
    portal domain. *)
Lemma scan_rows_url rows url y name :
  scan_rows identifier basin_idx year_idx rows = (Some url, y, name) ->
  ∃ href, url = DOMAIN +:+ href.
Proof.
  unfold scan_rows.
  assert (∀ st, (∀ u, fst (fst st) = Some u → ∃ href, u = DOMAIN +:+ href) →
                ∀ u, fst (fst (fold_left step rows st)) = Some u →
                     ∃ href, u = DOMAIN +:+ href) as Hinv.
  { induction rows as [|row rows IH]; intros st Hst; [done|].
    cbn [fold_left]. apply IH. destruct st as [[u m] n].
    destruct (scan_row_spec u m n row)
      as [[_ ->]|(name' & y' & href' & _ & ->)]; [done|].
    destruct (m <=? y'); [|done]. intros ? [= <-]. by exists href'. }
  intros H. apply (Hinv best_init); [done|]. by rewrite H.
Qed.

End Scan.

(** *** The three methods, run on an arbitrary page *)

Section Methods.
Context {B : Type} (page : Page B).
Local Open Scope py_scope.

(** Uses a known successful step [H] to advance the run in the goal. *)
Local Ltac step_with H := rewrite (bind_Ok _ _ _ _ _ H).

Lemma find_basin_page_scans identifier b1 b3 basin_idx year_idx rows :
  listing_scanned page identifier b1 b3 basin_idx year_idx rows ->
  _find_basin_page page identifier b1
  = (Ok (scan_rows identifier basin_idx year_idx rows), b3).
Proof.
  intros (soup1 & b2 & headers & soup2 & Hread & Hhead & Hmap & Hfilter & Hrows).
  run_inv Hread. run_inv Hread. run_inv Hfilter.
  unfold _find_basin_page.
  step_with Hread0. step_with Hread1. step_with Hread.
  unfold lift at 1. unfold bind at 1. rewrite Hhead, Hmap.
  step_with Hfilter0. step_with Hfilter.
  unfold lift, bind. by rewrite Hrows.
Qed.

Lemma find_basin_page_unmapped identifier b1 b2 texts :
  header_read page b1 b2 texts ->
  absent "basin" texts ∨ absent "year" texts ->
  _find_basin_page page identifier b1 = (Ok (None, 0, ""), b2).
Proof.
  intros (soup1 & Hread & Hhead) Hmap%map_headers_absent.
  run_inv Hread. run_inv Hread.
  unfold _find_basin_page.
  step_with Hread0. step_with Hread1. step_with Hread.
  unfold lift at 1. unfold bind at 1. by rewrite Hhead, Hmap.
Qed.

Lemma find_basin_page_timeout identifier b1 b2 b3 e :
  goto page BASE_URL None None b1 = (Ok tt, b2) ->
  wait_for_selector page "table" 15000 b2 = (Raise e, b3) ->
  _find_basin_page page identifier b1 = (Raise e, b3).
Proof.
  intros Hgoto Hwait. unfold _find_basin_page.
  step_with Hgoto. by rewrite (bind_Raise _ _ _ _ _ Hwait).
Qed.

Lemma get_basin_documents_not_found identifier b0 b1 b2 b3 y name :
  launch page b0 = (Ok tt, b1) ->
  _find_basin_page page identifier b1 = (Ok (None, y, name), b2) ->
  close page b2 = (Ok tt, b3) ->
  get_basin_documents page identifier b0 = (Ok ∅, b3).
Proof.
  intros Hlaunch Hfind Hclose. unfold get_basin_documents.
  step_with Hlaunch. unfold try_finally.
  step_with Hfind. unfold ret. by rewrite Hclose.
Qed.

Lemma get_basin_documents_raises identifier b0 b1 b2 b3 e :
  launch page b0 = (Ok tt, b1) ->
  _find_basin_page page identifier b1 = (Raise e, b2) ->
  close page b2 = (Ok tt, b3) ->
  get_basin_documents page identifier b0 = (Raise e, b3).
Proof.
  intros Hlaunch Hfind Hclose. unfold get_basin_documents.
  step_with Hlaunch. unfold try_finally.
  rewrite (bind_Raise _ _ _ _ _ Hfind). by rewrite Hclose.
Qed.

Lemma harvest_pdfs_read url year b0 b1 soup :
  detail_read page url b0 b1 soup ->
  _harvest_pdfs page url year b0
  = (docs <- lift (find_annual_report soup year docs_init) ;;
     find_gsp page soup docs) b1.
Proof.
  unfold detail_read. intros Hread. run_inv Hread.
  unfold _harvest_pdfs. step_with Hread0. by step_with Hread.
Qed.

(** The plan lookup does not touch the page when its link has no
    address to follow. *)
Lemma find_gsp_no_href soup docs gsp_link b :
  find_by_string "a" gsp_text soup = Some gsp_link ->
  get "href" gsp_link = None ->
  find_gsp page soup docs b = (Ok docs, b).
Proof. intros Hlink Hhref. unfold find_gsp. by rewrite Hlink, Hhref. Qed.

(** A failed hop leaves the dictionary as it was. *)
Lemma find_gsp_hop_fails soup docs gsp_link href b b' e :
  find_by_string "a" gsp_text soup = Some gsp_link ->
  get "href" gsp_link = Some href -> href ≠ "" ->
  gsp_hop page (DOMAIN +:+ href) docs b = (Raise e, b') ->
  find_gsp page soup docs b = (Ok docs, b').
Proof.
  intros Hlink Hhref Hne%truthy_nonempty Hhop. unfold find_gsp.
  rewrite Hlink, Hhref, Hne. unfold try_except. by rewrite Hhop.
Qed.

End Methods.

(** *** The dictionary of [_harvest_pdfs] *)

Lemma docs_init_annual : docs_init !! "annual_report_url" = Some VNone.
Proof. reflexivity. Qed.

Lemma docs_init_gsp : docs_init !! "gsp_url" = Some VNone.
Proof. reflexivity. Qed.

Lemma docs_init_dom : dom docs_init = ({["annual_report_url"; "gsp_url"]} : gset string).
Proof. unfold docs_init. rewrite !dom_insert_L, dom_empty_L. set_solver. Qed.

(** The annual-report lookup writes at most the key [annual_report_url]. *)
Lemma find_annual_report_frame soup year docs docs' :
  find_annual_report soup year docs = Ok docs' ->
  docs' = docs ∨ ∃ v, docs' = <["annual_report_url" := v]> docs.
Proof.
  unfold find_annual_report. intros H.
  repeat match type of H with
         | match ?x with _ => _ end = _ => destruct x eqn:?
         end; simplify_eq; eauto.
Qed.

Lemma find_annual_report_gsp soup year docs :
  find_annual_report soup year docs_init = Ok docs ->
  docs !! "gsp_url" = Some VNone ∧
  dom docs = ({["annual_report_url"; "gsp_url"]} : gset string).
Proof.
  intros [->|[v ->]]%find_annual_report_frame.
  - split; [apply docs_init_gsp|apply docs_init_dom].
  - split; [by rewrite lookup_insert_ne|].
    rewrite dom_insert_L, docs_init_dom. set_solver.
Qed.

(* ===================================================================== *)
(** ** The claims *)
(* ===================================================================== *)

(** C1, as stated, fails: a row is not a candidate for the locator when
    the hyperlink of its basin cell is not the first anchor of the cell.
    Here the row of 2024 holds the identifier, a 4-digit year and a
    hyperlink, and has the maximal year, yet the row of 2023 is
    returned. *)
Lemma second_anchor_row_not_selected :
  ¬ (∀ (page : Page Portal.browser) identifier b1 b3 basin_idx year_idx
       rows k row name y href,
        listing_scanned page identifier b1 b3 basin_idx year_idx rows →
        rows !! k = Some row →
        candidate_as_specified identifier basin_idx year_idx row name y href →
        (∀ j r n' y' h', rows !! j = Some r →
           candidate_as_specified identifier basin_idx year_idx r n' y' h' → y' <= y) →
        (∀ j r n' y' h', rows !! j = Some r → (k < j)%nat →
           candidate_as_specified identifier basin_idx year_idx r n' y' h' → y' < y) →
        _find_basin_page page identifier b1
        = (Ok (Some (DOMAIN +:+ href), y, name), b3)).
Proof.
  intros H.
  specialize (H (Portal.sim_page
                   (Portal.serve Portal.listing_second_anchor Portal.plan None))
                "Basin A" Portal.blank
                (Portal.MkBrowser Portal.listing_second_anchor "Basin A" [BASE_URL])
                0%nat 2%nat [Portal.row_2023; Portal.row_second_anchor] 1%nat
                Portal.row_second_anchor "Basin A (1-001)" 2024
                "/portal/gspar/preview/12").
  assert (∀ j r n' y' h',
            [Portal.row_2023; Portal.row_second_anchor] !! j = Some r →
            candidate_as_specified "Basin A" 0 2 r n' y' h' → y' <= 2024) as Hmax.
  { intros j r n' y' h' Hj (bc & yc & lk & _ & Hy & _ & _ & Hrun%parse_year_Some & _).
    destruct j as [|[|j]]; [| |discriminate Hj];
      injection Hj as <-; vm_compute in Hy; injection Hy as <-;
      vm_compute in Hrun; injection Hrun as <-; lia. }
  apply (f_equal fst) in H.
  - vm_compute in H. discriminate H.
  - exists Portal.listing_second_anchor,
      (Portal.MkBrowser Portal.listing_second_anchor "" [BASE_URL]),
      ["basin"; "status"; "year"], Portal.listing_second_anchor.
    split_and!; reflexivity.
  - reflexivity.
  - exists (Portal.td [Tag "a" [("name", "b1-001")] [];
                       Portal.link "/portal/gspar/preview/12" "Basin A (1-001)"]),
      (Portal.td [Portal.txt "2024"]),
      (Portal.link "/portal/gspar/preview/12" "Basin A (1-001)").
    split_and!; try reflexivity.
    + apply parse_year_Some. reflexivity.
    + apply (list_elem_of_lookup_2 _ 1%nat). reflexivity.
    + discriminate.
  - exact Hmax.
  - intros j r n' y' h' Hj Hlt _. destruct j as [|[|j]]; [lia..|discriminate Hj].
Qed.

(** C1, amended.  Whatever rows the Basin Locator scans, it returns the
    valid candidate row whose year is the maximum over all valid rows,
    a row being valid when its basin text contains the identifier, its
    year cell holds a 4-digit year and the first anchor of its basin cell
    carries a non-empty [href]; among valid rows of that maximal year it
    returns the one scanned last (the comparison is [>=]): if row [k] is
    valid with year [y], no valid row has a larger year and every valid
    row scanned after [k] has a smaller one, the locator returns the
    address, the year and the name of row [k]. *)
Theorem basin_locator_selects_latest {B} (page : Page B) identifier b1 b3
    basin_idx year_idx rows k row name y href :
  listing_scanned page identifier b1 b3 basin_idx year_idx rows ->
  rows !! k = Some row ->
  candidate identifier basin_idx year_idx row name y href ->
  (∀ j r n' y' h', rows !! j = Some r →
     candidate identifier basin_idx year_idx r n' y' h' → y' <= y) ->
  (∀ j r n' y' h', rows !! j = Some r → (k < j)%nat →
     candidate identifier basin_idx year_idx r n' y' h' → y' < y) ->
  _find_basin_page page identifier b1 = (Ok (Some (DOMAIN +:+ href), y, name), b3).
Proof.
  intros Hrun Hk Hc Hmax Hlater.
  rewrite (find_basin_page_scans _ _ _ _ _ _ _ Hrun).
  f_equal. f_equal. by eapply scan_rows_latest.
Qed.

Lemma basin_locator_selects_latest_witness :
  fst (_find_basin_page
         (Portal.sim_page (Portal.serve Portal.listing_tie Portal.detail_text_match None))
         "basin a" Portal.blank)
  = Ok (Some "https://sgma.water.ca.gov/portal/gspar/preview/14", 2024, "Basin A (1-001)").
Proof.
  set (page := Portal.sim_page (Portal.serve Portal.listing_tie Portal.detail_text_match None)).
  pose (b3 := Portal.MkBrowser Portal.listing_tie "basin a" [BASE_URL]).
  pose (rows := tail (find_all ["tr"] Portal.listing_tie)).
  rewrite (basin_locator_selects_latest page "basin a" Portal.blank b3 1 0 rows 3
             (Portal.tr [Portal.td [Portal.txt "2024"];
                         Portal.td [Portal.link "/portal/gspar/preview/14" "Basin A (1-001)"]])
             "Basin A (1-001)" 2024 "/portal/gspar/preview/14").
  - reflexivity.
  - exists Portal.listing_tie, (Portal.MkBrowser Portal.listing_tie "" [BASE_URL]),
      ["year"; "basin name"], Portal.listing_tie.
    split_and!; reflexivity.
  - reflexivity.
  - apply candidate_scan_first. reflexivity.
  - intros j r n' y' h' Hj Hc. apply candidate_scan_first in Hc.
    do 5 (destruct j as [|j]; [injection Hj as <-; vm_compute in Hc; injection Hc; lia || discriminate Hc|]).
    discriminate Hj.
  - intros j r n' y' h' Hj Hlt Hc. apply candidate_scan_first in Hc.
    do 4 (destruct j as [|j]; [lia|]).
    destruct j as [|j]; [injection Hj as <-; vm_compute in Hc; discriminate Hc|].
    discriminate Hj.
Defined.

(** C2.  The resolver run on a detail page whose first anchor with a
    matching text ("3-001_WY_2024.pdf") has no [href], followed by an
    anchor with the same text and the address [/document/555]: the text
    match selects the first anchor, [pdf_link['href']] raises [KeyError],
    and the exception leaves [get_basin_documents]; no address is
    returned and the section lookup is not tried. *)
Theorem text_match_without_href_raises :
  find_by_string "a" (text_pattern 2024) Portal.detail_no_href
    = Some (Tag "a" [("class", "file")] [NavigableString "3-001_WY_2024.pdf"]) ∧
  find_annual_report Portal.detail_no_href 2024 docs_init = Raise (KeyError "href") ∧
  fst (get_basin_documents
         (Portal.sim_page (Portal.serve Portal.listing Portal.detail_no_href None))
         "Basin A" Portal.blank)
    = Raise (KeyError "href").
Proof. split_and!; reflexivity. Qed.

(** C3, as stated, fails: when the listing table does not show up in
    time, the timeout is not turned into an empty dictionary. *)
Lemma listing_timeout_escapes :
  ¬ (∀ (page : Page Portal.browser) identifier b0 b1 b2 b3 msg,
        launch page b0 = (Ok tt, b1) →
        goto page BASE_URL None None b1 = (Ok tt, b2) →
        wait_for_selector page "table" 15000 b2 = (Raise (TimeoutError msg), b3) →
        ∃ b4, get_basin_documents page identifier b0 = (Ok ∅, b4)).
Proof.
  intros H.
  destruct (H (Portal.sim_page (Portal.serve Portal.listing_blank Portal.plan None))
              "5-022.08" Portal.blank Portal.blank
              (Portal.MkBrowser Portal.listing_blank "" [BASE_URL])
              (Portal.MkBrowser Portal.listing_blank "" [BASE_URL])
              "Timeout 15000ms exceeded.") as [b4 Hb4]; [reflexivity..|].
  vm_compute in Hb4. discriminate Hb4.
Qed.

(** C3, amended.  When the header roles cannot be mapped,
    [get_basin_documents] returns the empty dictionary and no exception
    escapes.  When the wait for the listing table times out, the timeout
    exception reaches the caller, once the browser is closed, and no
    dictionary is returned. *)
Theorem fatal_conditions {B} (page : Page B) identifier b0 b1 :
  launch page b0 = (Ok tt, b1) ->
  (∀ b2 b3 texts,
      header_read page b1 b2 texts →
      absent "basin" texts ∨ absent "year" texts →
      close page b2 = (Ok tt, b3) →
      get_basin_documents page identifier b0 = (Ok ∅, b3)) ∧
  (∀ b2 b3 b4 msg,
      goto page BASE_URL None None b1 = (Ok tt, b2) →
      wait_for_selector page "table" 15000 b2 = (Raise (TimeoutError msg), b3) →
      close page b3 = (Ok tt, b4) →
      get_basin_documents page identifier b0 = (Raise (TimeoutError msg), b4)).
Proof.
  intros Hlaunch. split.
  - intros b2 b3 texts Hread Habs Hclose.
    eapply get_basin_documents_not_found; [done| |done].
    by eapply find_basin_page_unmapped.
  - intros b2 b3 b4 msg Hgoto Hwait Hclose.
    eapply get_basin_documents_raises; [done| |done].
    by eapply find_basin_page_timeout.
Qed.

Lemma fatal_conditions_witness :
  fst (get_basin_documents
         (Portal.sim_page (Portal.serve Portal.listing_unmapped Portal.plan None))
         "Basin A" Portal.blank) = Ok ∅ ∧
  fst (get_basin_documents
         (Portal.sim_page (Portal.serve Portal.listing_blank Portal.plan None))
         "Basin A" Portal.blank) = Raise (TimeoutError "Timeout 15000ms exceeded.").
Proof.
  split.
  - pose proof (fatal_conditions
                  (Portal.sim_page (Portal.serve Portal.listing_unmapped Portal.plan None))
                  "Basin A" Portal.blank Portal.blank eq_refl) as [H _].
    rewrite (H (Portal.MkBrowser Portal.listing_unmapped "" [BASE_URL])
               (Portal.MkBrowser Portal.listing_unmapped "" [BASE_URL])
               ["Basin"; "Status"; "Period"]).
    + reflexivity.
    + exists Portal.listing_unmapped. split; reflexivity.
    + right. intros h Hh. repeat (apply elem_of_cons in Hh as [->|Hh]; [reflexivity|]).
      by apply elem_of_nil in Hh.
    + reflexivity.
  - pose proof (fatal_conditions
                  (Portal.sim_page (Portal.serve Portal.listing_blank Portal.plan None))
                  "Basin A" Portal.blank Portal.blank eq_refl) as [_ H].
    rewrite (H (Portal.MkBrowser Portal.listing_blank "" [BASE_URL])
               (Portal.MkBrowser Portal.listing_blank "" [BASE_URL])
               (Portal.MkBrowser Portal.listing_blank "" [BASE_URL])
               "Timeout 15000ms exceeded."); reflexivity.
Defined.

(** The header the code computes from the cells of the header row: the
    texts of the cells, lower-cased. *)
Lemma header_texts_of_row soup table header_row :
  find "table" soup = Some table ->
  match find "thead" table with
  | Some thead => find "tr" thead
  | None => find "tr" table
  end = Some header_row ->
  header_texts soup
  = Ok (lower <$> (get_text_strip <$> find_all ["th"; "td"] header_row)).
Proof.
  intros Htable Hrow. unfold header_texts. rewrite Htable. cbv zeta. rewrite Hrow.
  f_equal. induction (find_all ["th"; "td"] header_row) as [|th cells IH]; [done|].
  cbn [fmap list_fmap] in *. by rewrite IH.
Qed.

(** C4.  Let [texts] be the texts of the cells of the header row of the
    listing, as the page shows them, in any letter case.  When some cell
    contains "basin" and some cell contains "year", letter case ignored,
    the header the code computes maps each role to the index of the
    leftmost cell containing its keyword, and the locator goes on to scan
    the filtered rows with these two indices.  When either keyword is in
    no cell, the mapping fails (the [StopIteration] of [next], which
    plays the part of the header-mapping error) and the query is
    aborted: the locator returns at once, in the state in which it read
    the header, and [get_basin_documents] returns the empty
    dictionary. *)
Theorem header_mapper {B} (page : Page B) identifier b0 b1 b2
    soup table header_row texts :
  launch page b0 = (Ok tt, b1) ->
  (goto page BASE_URL None None ;;
   wait_for_selector page "table" 15000 ;;
   content page)%py b1 = (Ok soup, b2) ->
  find "table" soup = Some table ->
  match find "thead" table with
  | Some thead => find "tr" thead
  | None => find "tr" table
  end = Some header_row ->
  texts = get_text_strip <$> find_all ["th"; "td"] header_row ->
  (∀ basin_idx year_idx,
      first_match "basin" texts basin_idx →
      first_match "year" texts year_idx →
      (∃ headers, header_texts soup = Ok headers ∧
                  map_headers headers = Ok (basin_idx, year_idx)) ∧
      ∀ b3 soup2 rows,
        (apply_filter page identifier ;; content page)%py b2 = (Ok soup2, b3) →
        result_rows soup2 = Ok rows →
        _find_basin_page page identifier b1
        = (Ok (scan_rows identifier basin_idx year_idx rows), b3)) ∧
  (absent "basin" texts ∨ absent "year" texts →
   (∃ headers, header_texts soup = Ok headers ∧
               map_headers headers = Raise StopIteration) ∧
   _find_basin_page page identifier b1 = (Ok (None, 0, ""), b2) ∧
   ∀ b3, close page b2 = (Ok tt, b3) →
         get_basin_documents page identifier b0 = (Ok ∅, b3)).
Proof.
  intros Hlaunch Hread Htable Hrow ->.
  pose proof (header_texts_of_row _ _ _ Htable Hrow) as Hhead.
  set (texts := get_text_strip <$> find_all ["th"; "td"] header_row) in *.
  split.
  - intros basin_idx year_idx Hb Hy.
    assert (map_headers (lower <$> texts) = Ok (basin_idx, year_idx)) as Hmap.
    { unfold map_headers.
      by rewrite (next_index_first _ _ _ Hb), (next_index_first _ _ _ Hy). }
    split; [by exists (lower <$> texts)|].
    intros b3 soup2 rows Hfilter Hrows.
    apply find_basin_page_scans. by exists soup, b2, (lower <$> texts), soup2.
  - intros Habs.
    assert (_find_basin_page page identifier b1 = (Ok (None, 0, ""), b2)) as Hfind.
    { apply (find_basin_page_unmapped _ _ _ _ texts); [by exists soup|done]. }
    split_and!; [|done|].
    + exists (lower <$> texts). split; [done|by apply map_headers_absent].
    + intros b3 Hclose. by eapply get_basin_documents_not_found.
Qed.

Lemma header_mapper_witness :
  fst (_find_basin_page
         (Portal.sim_page (Portal.serve Portal.listing_tie Portal.plan None))
         "basin a" Portal.blank)
  = Ok (scan_rows "basin a" 1 0 (tail (find_all ["tr"] Portal.listing_tie))) ∧
  fst (get_basin_documents
         (Portal.sim_page (Portal.serve Portal.listing_unmapped Portal.plan None))
         "Basin A" Portal.blank) = Ok ∅.
Proof.
  split.
  - set (page := Portal.sim_page (Portal.serve Portal.listing_tie Portal.plan None)).
    edestruct (header_mapper page "basin a" Portal.blank Portal.blank
                 (Portal.MkBrowser Portal.listing_tie "" [BASE_URL])
                 Portal.listing_tie) as [H _]; [reflexivity..|].
    destruct (H 1%nat 0%nat) as [_ Hscan].
    + split; [by exists "Basin Name"|].
      intros j h Hj Hh. destruct j as [|j]; [by injection Hh as <-|lia].
    + split; [by exists "Year"|]. intros j h Hj. lia.
    + by rewrite (Hscan (Portal.MkBrowser Portal.listing_tie "basin a" [BASE_URL])
                    Portal.listing_tie (tail (find_all ["tr"] Portal.listing_tie))
                    eq_refl eq_refl).
  - set (page := Portal.sim_page (Portal.serve Portal.listing_unmapped Portal.plan None)).
    edestruct (header_mapper page "Basin A" Portal.blank Portal.blank
                 (Portal.MkBrowser Portal.listing_unmapped "" [BASE_URL])
                 Portal.listing_unmapped) as [_ H]; [reflexivity..|].
    destruct H as (_ & _ & Hget).
    + right. intros h Hh. change (h ∈ ["Basin"; "Status"; "Period"]) in Hh.
      repeat (apply elem_of_cons in Hh as [->|Hh]; [reflexivity|]).
      by apply elem_of_nil in Hh.
    + by rewrite (Hget (Portal.MkBrowser Portal.listing_unmapped "" [BASE_URL]) eq_refl).
Defined.

(** *** More on the two lookups of [_harvest_pdfs] *)

Lemma has_name_div_td x :
  has_name ["div"; "td"] x = false ↔
  has_name ["div"] x = false ∧ has_name ["td"] x = false.
Proof.
  destruct x as [s|nm attrs cs]; simpl; [done|].
  rewrite !orb_false_r. apply orb_false_iff.
Qed.

Lemma container_of_Some parents c :
  container_of parents = Some c ↔ enclosing_container parents c.
Proof.
  unfold container_of, enclosing_container.
  destruct (find_parent "div" parents) as [d|] eqn:Ed.
  - split.
    + intros [= <-]. left. by apply find_parent_nearest.
    + intros [Hc|[Hno _]].
      * apply find_parent_nearest in Hc. congruence.
      * apply find_parent_none in Hno. congruence.
  - rewrite find_parent_nearest. split.
    + intros Hc. right. split; [by apply find_parent_none|done].
    + intros [Hc|[_ Hc]]; [|done].
      apply find_parent_nearest in Hc. congruence.
Qed.

Lemma container_of_None parents :
  container_of parents = None ↔ ∀ x, x ∈ parents → has_name ["div"; "td"] x = false.
Proof.
  unfold container_of.
  destruct (find_parent "div" parents) as [d|] eqn:Ed.
  - split; [discriminate|]. intros Hno.
    apply find_parent_nearest in Ed as (i & Hi & Hd & _).
    apply list_elem_of_lookup_2, Hno, has_name_div_td in Hi as [Hi _]. congruence.
  - rewrite find_parent_none. pose proof (proj1 (find_parent_none _ _) Ed) as Hdiv.
    split.
    + intros Htd x Hx. apply has_name_div_td. split; [by apply Hdiv|by apply Htd].
    + intros Hno x Hx. by apply Hno, has_name_div_td in Hx as [_ ?].
Qed.

Lemma first_tag_href name f n a :
  first_tag name (fun t => f (get "href" t)) n a -> f None = false ->
  ∃ href, get "href" a = Some href.
Proof.
  intros (i & _ & _ & Ha & _) Hf.
  destruct (get "href" a) as [href|]; [by exists href|congruence].
Qed.

(** The text match wins whenever it finds an anchor that has an
    address; the section lookup is then not consulted. *)
Lemma find_annual_report_text_match soup year docs a href :
  find_by_string "a" (text_pattern year) soup = Some a ->
  get "href" a = Some href ->
  find_annual_report soup year docs
  = Ok (<["annual_report_url" := VStr (DOMAIN +:+ href)]> docs).
Proof.
  intros Ha Hhref. unfold find_annual_report, getitem. by rewrite Ha, Hhref.
Qed.

(** Without a text match, the outcome is that of the section lookup. *)
Lemma find_annual_report_section soup year :
  find_by_string "a" (text_pattern year) soup = None ->
  ∃ v, find_annual_report soup year docs_init
       = Ok (<["annual_report_url" := v]> docs_init) ∧
       section_lookup soup v.
Proof.
  intros HA. unfold find_annual_report. rewrite HA.
  assert (docs_init = <["annual_report_url" := VNone]> docs_init) as Hid
    by (symmetry; apply insert_id, docs_init_annual).
  destruct (find_string section_header soup) as [[s parents]|] eqn:Es; cycle 1.
  { exists VNone. split; [by rewrite <- Hid|].
    apply lookup_no_text. by apply find_string_none. }
  apply find_string_first in Es. simpl.
  destruct (container_of parents) as [c|] eqn:Ec; cycle 1.
  { exists VNone. split; [by rewrite <- Hid|].
    eapply lookup_no_container; [done|]. by apply container_of_None. }
  apply container_of_Some in Ec.
  destruct (find_by_attr "a" "href" document_href c) as [a|] eqn:Ea; cycle 1.
  { exists VNone. split; [by rewrite <- Hid|].
    eapply lookup_no_link; [done..|]. by apply find_by_attr_none. }
  apply find_by_attr_first in Ea.
  destruct (first_tag_href _ _ _ _ Ea eq_refl) as [href Hhref].
  exists (VStr (DOMAIN +:+ href)). unfold getitem. rewrite Hhref.
  split; [done|]. by eapply lookup_link.
Qed.

Section Plan.
Context {B : Type} (page : Page B).
Local Open Scope py_scope.

(** The plan lookup never raises and writes at most the key [gsp_url]. *)
Lemma find_gsp_frame soup docs b :
  ∃ docs' b', find_gsp page soup docs b = (Ok docs', b') ∧
              (docs' = docs ∨ ∃ href, docs' = <["gsp_url" := VStr (DOMAIN +:+ href)]> docs).
Proof.
  unfold find_gsp.
  destruct (find_by_string "a" gsp_text soup) as [g|]; [|by eauto 6].
  destruct (get "href" g) as [h|]; [|by eauto 6].
  destruct (truthy h); [|by eauto 6].
  unfold try_except, gsp_hop, bind, lift, ret.
  destruct (goto page _ _ _ b) as [[[]|e] b1]; [|by eauto 6].
  destruct (content page b1) as [[sub|e] b2]; [|by eauto 6].
  unfold find_final_pdf, getitem.
  destruct (find_by_attr "a" "href" pdf_href sub) as [a|]; [|by eauto 6].
  destruct (get "href" a) as [href|]; by eauto 7.
Qed.

Lemma find_gsp_annual soup docs docs' b b' :
  find_gsp page soup docs b = (Ok docs', b') ->
  docs' !! "annual_report_url" = docs !! "annual_report_url".
Proof.
  intros H. destruct (find_gsp_frame soup docs b) as (d & bd & Hd & [->|[href ->]]);
    rewrite Hd in H; simplify_eq; [done|]. by rewrite lookup_insert_ne.
Qed.

End Plan.

Lemma find_annual_report_anchor soup year docs :
  find_annual_report soup year docs_init = Ok docs ->
  docs !! "annual_report_url" = Some VNone ∨
  ∃ a href, annual_report_anchor soup year a ∧ get "href" a = Some href ∧
            docs !! "annual_report_url" = Some (VStr (DOMAIN +:+ href)).
Proof.
  destruct (find_by_string "a" (text_pattern year) soup) as [a|] eqn:EA.
  - unfold find_annual_report, getitem. rewrite EA.
    destruct (get "href" a) as [href|] eqn:Eh; [|discriminate].
    intros [= <-]. right. exists a, href. split_and!; [|done|by rewrite lookup_insert_eq].
    left. by apply find_by_string_first.
  - destruct (find_annual_report_section soup year EA) as (v & -> & Hv).
    intros [= <-]. rewrite lookup_insert_eq.
    destruct Hv as [?|? ? ? ?|? ? ? ? ? ?|s parents c a href Hs Hc Ha Hh]; [by left..|].
    right. exists a, href. split_and!; [|done..].
    right. split; [by apply find_by_string_none|]. by exists s, parents, c.
Qed.

Section Results.
Context {B : Type} (page : Page B).
Local Open Scope py_scope.

Lemma load_detail_total url b : ∃ b', load_detail page url b = (Ok tt, b').
Proof.
  unfold load_detail, try_except, bind, ret.
  destruct (goto page url _ _ b) as [[[]|e] b1]; [|by eauto].
  destruct (wait_for_selector page "a" 5000 b1) as [[[]|e] b2]; by eauto.
Qed.

Lemma harvest_pdfs_inv url year b0 b' docs :
  _harvest_pdfs page url year b0 = (Ok docs, b') ->
  ∃ soup b1 docs1,
    detail_read page url b0 b1 soup ∧
    find_annual_report soup year docs_init = Ok docs1 ∧
    find_gsp page soup docs1 b1 = (Ok docs, b').
Proof.
  unfold _harvest_pdfs, detail_read. intros H.
  run_inv H as u bl Hload. run_inv H as soup b1 Hsoup. run_inv H as docs1 b1' Hannual.
  destruct u. unfold lift in Hannual. simplify_eq.
  exists soup, b1', docs1. split_and!; [|done..].
  by rewrite (bind_Ok _ _ _ _ _ Hload).
Qed.

Lemma find_gsp_anchor soup docs docs' b1 b' :
  find_gsp page soup docs b1 = (Ok docs', b') ->
  docs !! "gsp_url" = Some VNone ->
  docs' !! "gsp_url" = Some VNone ∨
  ∃ a href, plan_anchor page soup b1 a ∧ get "href" a = Some href ∧
            docs' !! "gsp_url" = Some (VStr (DOMAIN +:+ href)).
Proof.
  unfold find_gsp. intros H Hnone.
  destruct (find_by_string "a" gsp_text soup) as [g|] eqn:Eg;
    [|unfold ret in H; simplify_eq; by left].
  destruct (get "href" g) as [h|] eqn:Eh; [|unfold ret in H; simplify_eq; by left].
  destruct (truthy h) eqn:Et; [|unfold ret in H; simplify_eq; by left].
  unfold try_except in H.
  destruct (gsp_hop page (DOMAIN +:+ h) docs b1) as [[d|e] bh] eqn:Ehop;
    [|unfold ret in H; simplify_eq; by left].
  simplify_eq. unfold gsp_hop in Ehop.
  run_inv Ehop as u bg Hgoto. run_inv Ehop as sub_soup bs Hsub. destruct u.
  unfold lift, find_final_pdf, getitem in Ehop.
  destruct (find_by_attr "a" "href" pdf_href sub_soup) as [a|] eqn:Ea;
    [|simplify_eq; by left].
  destruct (get "href" a) as [href|] eqn:Ehref; [|discriminate].
  simplify_eq. right. exists a, href.
  split_and!; [|done|by rewrite lookup_insert_eq].
  exists g, h, sub_soup, b'. split_and!.
  - by apply find_by_string_first.
  - done.
  - by apply truthy_nonempty.
  - by rewrite (bind_Ok _ _ _ _ _ Hgoto).
  - by apply find_by_attr_first.
Qed.

Lemma find_gsp_dom soup docs docs' b1 b' :
  find_gsp page soup docs b1 = (Ok docs', b') ->
  dom docs = ({["annual_report_url"; "gsp_url"]} : gset string) ->
  dom docs' = ({["annual_report_url"; "gsp_url"]} : gset string).
Proof.
  intros H Hdom.
  destruct (find_gsp_frame page soup docs b1) as (d & bd & Hd & [->|[href ->]]);
    rewrite Hd in H; simplify_eq; [done|].
  rewrite dom_insert_L, Hdom. set_solver.
Qed.

(** Once the snapshot of the detail page is taken, [_harvest_pdfs]
    returns as soon as the annual-report lookup does not raise. *)
Lemma harvest_pdfs_returns url year b0 b1 soup docs1 :
  detail_read page url b0 b1 soup ->
  find_annual_report soup year docs_init = Ok docs1 ->
  ∃ docs b2, _harvest_pdfs page url year b0 = (Ok docs, b2).
Proof.
  intros Hread Hannual.
  destruct (find_gsp_frame page soup docs1 b1) as (docs & b2 & Hgsp & _).
  exists docs, b2. rewrite (harvest_pdfs_read _ _ _ _ _ _ Hread).
  unfold lift at 1. unfold bind at 1. by rewrite Hannual.
Qed.

(** An address returned by the locator starts with the portal domain. *)
Lemma find_basin_page_url identifier b1 b2 url y name :
  _find_basin_page page identifier b1 = (Ok (Some url, y, name), b2) ->
  ∃ href, url = DOMAIN +:+ href.
Proof.
  unfold _find_basin_page. intros H.
  run_inv H as u1 bg Hgoto. run_inv H as u2 bw Hwait.
  run_inv H as soup1 bc Hsoup. run_inv H as headers bh Hheaders.
  destruct (map_headers headers) as [[basin_idx year_idx]|[]]; try discriminate.
  run_inv H as u3 bf Hfilter. run_inv H as soup2 bc2 Hsoup2.
  run_inv H as rows br Hrows.
  unfold ret in H. simplify_eq. by eapply scan_rows_url.
Qed.

(** A query with a basin match returns a dictionary as soon as the
    snapshot of the detail page is taken, the annual-report lookup does
    not raise, and the browser closes. *)
Lemma get_basin_documents_returns identifier b0 b1 b2 b3 url y name soup docs1 :
  launch page b0 = (Ok tt, b1) ->
  _find_basin_page page identifier b1 = (Ok (Some url, y, name), b2) ->
  detail_read page url b2 b3 soup ->
  find_annual_report soup y docs_init = Ok docs1 ->
  (∀ b, ∃ b', close page b = (Ok tt, b')) ->
  ∃ d b5, get_basin_documents page identifier b0 = (Ok d, b5).
Proof.
  intros Hlaunch Hfind Hread Hannual Hclose.
  destruct (find_basin_page_url _ _ _ _ _ _ Hfind) as [h ->].
  destruct (harvest_pdfs_returns _ _ _ _ _ _ Hread Hannual) as (docs & b4 & Hharvest).
  destruct (Hclose b4) as [b5 Hb5].
  unfold get_basin_documents.
  rewrite (bind_Ok _ _ _ _ _ Hlaunch). unfold try_finally.
  rewrite (bind_Ok _ _ _ _ _ Hfind).
  change (truthy (DOMAIN +:+ h)) with true. cbn [negb].
  rewrite (bind_Ok _ _ _ _ _ Hharvest). unfold ret. rewrite Hb5. by eauto.
Qed.

End Results.

(** C5.  Whenever the hop to the plan sub-page fails, be it the
    navigation, the snapshot or its reading that raises, [_harvest_pdfs]
    returns, without raising, the very dictionary it held before the hop:
    [annual_report_url] is as the annual-report lookup left it and
    [gsp_url] is null. *)
Theorem gsp_failure_keeps_annual_report {B} (page : Page B) url year
    b0 b1 b2 soup docs gsp_link href e :
  detail_read page url b0 b1 soup ->
  find_annual_report soup year docs_init = Ok docs ->
  first_tag "a" (fun t => gsp_text (tag_string t)) soup gsp_link ->
  get "href" gsp_link = Some href -> href ≠ "" ->
  gsp_hop page (DOMAIN +:+ href) docs b1 = (Raise e, b2) ->
  _harvest_pdfs page url year b0 = (Ok docs, b2) ∧
  docs !! "gsp_url" = Some VNone.
Proof.
  intros Hread Hannual Hlink%find_by_string_first Hhref Hne Hhop.
  split; [|by apply find_annual_report_gsp in Hannual as [? _]].
  rewrite (harvest_pdfs_read _ _ _ _ _ _ Hread).
  unfold lift at 1. unfold bind at 1. rewrite Hannual.
  by eapply find_gsp_hop_fails.
Qed.

Lemma gsp_failure_keeps_annual_report_witness :
  _harvest_pdfs
    (Portal.sim_page (Portal.serve Portal.listing Portal.detail_text_match None))
    "https://sgma.water.ca.gov/portal/gspar/preview/12" 2024 Portal.blank
  = (Ok (<["annual_report_url" := VStr "https://sgma.water.ca.gov/document/555"]>
           docs_init),
     Portal.MkBrowser Portal.detail_text_match ""
       ["https://sgma.water.ca.gov/portal/gspar/preview/12";
        "https://sgma.water.ca.gov/portal/gsp/preview/7"]).
Proof.
  refine (proj1 (gsp_failure_keeps_annual_report
            (Portal.sim_page (Portal.serve Portal.listing Portal.detail_text_match None))
            "https://sgma.water.ca.gov/portal/gspar/preview/12" 2024 Portal.blank
            (Portal.MkBrowser Portal.detail_text_match ""
               ["https://sgma.water.ca.gov/portal/gspar/preview/12"])
            _ Portal.detail_text_match _
            (Portal.link "/portal/gsp/preview/7" "GSP 2022") "/portal/gsp/preview/7"
            (Error "net::ERR_CONNECTION_REFUSED") _ _ _ _ _ _)).
  - reflexivity.
  - reflexivity.
  - apply find_by_string_first. reflexivity.
  - reflexivity.
  - discriminate.
  - reflexivity.
Defined.

(** C6.  The year parsed from a year-cell text is the integer value of
    the first run of four digits found anywhere in the text, so that a
    year embedded in other text is accepted; a text without any run of
    four digits has no year, and a row whose year cell shows such a text
    is left out: scanning it changes nothing. *)
Theorem year_parsing (text : string) :
  (∀ y, parse_year text = Some y ↔ first_run_value text y) ∧
  ((∀ i, ¬ run_at text i) →
   parse_year text = None ∧
   ∀ identifier basin_idx year_idx st row year_cell,
     find_all ["td"] row !! year_idx = Some year_cell →
     get_text_strip year_cell = text →
     scan_row identifier basin_idx year_idx st row = st).
Proof.
  split; [apply parse_year_Some|].
  intros Hno. split; [by apply parse_year_None|].
  intros identifier basin_idx year_idx [[u m] n] row year_cell Hcell Htext.
  destruct (scan_row_spec identifier basin_idx year_idx u m n row)
    as [[_ ->]|(name & y & href & Hc & _)]; [done|].
  destruct Hc as (bc & yc & lk & _ & Hy & _ & _ & (i & a & b & c & d & Hrun & _) & _).
  simplify_eq. destruct (Hno i). by exists a, b, c, d.
Qed.

Lemma year_parsing_witness :
  first_run_value "WY 2024 (Draft)" 2024 ∧
  parse_year "pending" = None ∧
  scan_row "Basin A" 0 2 (Some "https://sgma.water.ca.gov/portal/gspar/preview/11", 2023, "Basin A (1-001)")
    Portal.row_undated
  = (Some "https://sgma.water.ca.gov/portal/gspar/preview/11", 2023, "Basin A (1-001)").
Proof.
  assert (∀ i, ¬ run_at "pending" i) as Hno by (by apply parse_year_None).
  split_and!.
  - apply (proj1 (year_parsing "WY 2024 (Draft)")). reflexivity.
  - apply (proj2 (year_parsing "pending") Hno).
  - apply (proj2 (proj2 (year_parsing "pending") Hno) _ _ _ _ _ (Portal.td [Portal.txt "pending"]));
      reflexivity.
Defined.

(** C7.  When the filtered table holds no valid candidate row, the Basin
    Locator returns, without raising, a null address, the year 0 and the
    empty name, and [get_basin_documents] returns the empty dictionary. *)
Theorem no_candidate_not_found {B} (page : Page B) identifier b0 b1 b3 b4
    basin_idx year_idx rows :
  launch page b0 = (Ok tt, b1) ->
  listing_scanned page identifier b1 b3 basin_idx year_idx rows ->
  (∀ row, row ∈ rows → ¬ valid_row identifier basin_idx year_idx row) ->
  close page b3 = (Ok tt, b4) ->
  _find_basin_page page identifier b1 = (Ok (None, 0, ""), b3) ∧
  get_basin_documents page identifier b0 = (Ok ∅, b4).
Proof.
  intros Hlaunch Hrun Hno Hclose.
  assert (_find_basin_page page identifier b1 = (Ok (None, 0, ""), b3)) as Hfind.
  { rewrite (find_basin_page_scans _ _ _ _ _ _ _ Hrun).
    unfold scan_rows. by rewrite scan_rows_invalid. }
  split; [done|]. by eapply get_basin_documents_not_found.
Qed.

Lemma no_candidate_not_found_witness :
  fst (get_basin_documents
         (Portal.sim_page (Portal.serve Portal.listing Portal.detail_text_match None))
         "Basin Z" Portal.blank) = Ok ∅.
Proof.
  set (page := Portal.sim_page (Portal.serve Portal.listing Portal.detail_text_match None)).
  assert (∀ row, row ∈ [Portal.row_2023; Portal.row_other; Portal.row_2024] →
                 ¬ valid_row "Basin Z" 0 2 row) as Hno.
  { intros row Hrow (name & y & href & Hc). apply candidate_scan_first in Hc.
    repeat (apply elem_of_cons in Hrow as [->|Hrow]; [discriminate Hc|]).
    by apply elem_of_nil in Hrow. }
  rewrite (proj2 (no_candidate_not_found page "Basin Z" Portal.blank Portal.blank
                    (Portal.MkBrowser Portal.listing "Basin Z" [BASE_URL])
                    (Portal.MkBrowser Portal.listing "Basin Z" [BASE_URL])
                    0 2 [Portal.row_2023; Portal.row_other; Portal.row_2024]
                    eq_refl
                    (ex_intro _ Portal.listing
                       (ex_intro _ (Portal.MkBrowser Portal.listing "" [BASE_URL])
                          (ex_intro _ ["basin"; "status"; "year"]
                             (ex_intro _ Portal.listing
                                (conj eq_refl (conj eq_refl (conj eq_refl
                                   (conj eq_refl eq_refl))))))))
                    Hno eq_refl)).
  reflexivity.
Defined.

(** C8, as stated, fails: the container is not always the nearest
    enclosing block-level container.  On a page whose section header sits
    in a table cell inside a [div], the lookup starts from the [div], and
    returns the first document link of the [div] rather than the one of
    the cell. *)
Lemma section_lookup_not_nearest :
  find_by_string "a" (text_pattern 2024) Portal.detail_nested = None ∧
  section_lookup_as_specified Portal.detail_nested
    = VStr "https://sgma.water.ca.gov/document/1" ∧
  find_annual_report Portal.detail_nested 2024 docs_init
    = Ok (<["annual_report_url" := VStr "https://sgma.water.ca.gov/document/0"]> docs_init) ∧
  find_annual_report Portal.detail_nested 2024 docs_init
    ≠ Ok (<["annual_report_url" := section_lookup_as_specified Portal.detail_nested]>
            docs_init).
Proof.
  split_and!; [reflexivity..|].
  intros H.
  apply (f_equal (fun r : result (gmap string pyval) =>
                    match r with
                    | Ok d => d !! "annual_report_url"
                    | Raise _ => None
                    end)) in H.
  vm_compute in H. discriminate H.
Qed.

(** C8, amended.  On every detail page on which the text match finds
    nothing, [annual_report_url] is settled by the section lookup: it
    takes the first text containing "Annual Report PDF", walks to the
    nearest enclosing [div], or to the nearest enclosing [td] when no
    [div] encloses the text, and returns the domain followed by the
    address of the first anchor of that container whose [href] contains
    "/document/"; when the text, the container or such an anchor is
    missing, [annual_report_url] is null. *)
Theorem section_fallback {B} (page : Page B) url year b0 b1 soup :
  detail_read page url b0 b1 soup ->
  no_tag "a" (fun t => text_pattern year (tag_string t)) soup ->
  ∃ docs b2 v,
    _harvest_pdfs page url year b0 = (Ok docs, b2) ∧
    docs !! "annual_report_url" = Some v ∧
    section_lookup soup v.
Proof.
  intros Hread HA%find_by_string_none.
  destruct (find_annual_report_section soup year HA) as (v & Hannual & Hv).
  destruct (find_gsp_frame page soup (<["annual_report_url" := v]> docs_init) b1)
    as (docs & b2 & Hgsp & _).
  exists docs, b2, v. split_and!; [|by rewrite (find_gsp_annual _ _ _ _ _ _ Hgsp), lookup_insert_eq|done].
  rewrite (harvest_pdfs_read _ _ _ _ _ _ Hread).
  unfold lift at 1. unfold bind at 1. by rewrite Hannual.
Qed.

Lemma section_fallback_witness :
  section_lookup Portal.detail_section (VStr "https://sgma.water.ca.gov/document/9").
Proof.
  set (page := Portal.sim_page (Portal.serve Portal.listing Portal.detail_section None)).
  set (url := "https://sgma.water.ca.gov/portal/gspar/preview/12").
  destruct (section_fallback page url 2024 Portal.blank
              (Portal.MkBrowser Portal.detail_section "" [url]) Portal.detail_section)
    as (docs & b2 & v & Hharvest & Hv & Hlookup).
  - reflexivity.
  - apply find_by_string_none. reflexivity.
  - assert (_harvest_pdfs page url 2024 Portal.blank
            = (Ok (<["annual_report_url" := VStr "https://sgma.water.ca.gov/document/9"]>
                     docs_init),
               Portal.MkBrowser Portal.detail_section "" [url])) as Hrun by reflexivity.
    rewrite Hrun in Hharvest.
    apply (f_equal (fun r : result (gmap string pyval) * Portal.browser =>
                      match fst r with
                      | Ok d => d !! "annual_report_url"
                      | Raise _ => None
                      end)) in Hharvest.
    cbn [fst] in Hharvest. rewrite lookup_insert_eq, Hv in Hharvest.
    injection Hharvest as <-. exact Hlookup.
Defined.

Lemma first_tag_find name accept n a :
  List.find (fun t => has_name [name] t && accept t) (descendants n) = Some a ->
  first_tag name accept n a.
Proof.
  intros (i & Hi & [? ?]%andb_prop & Hmin)%find_Some_first.
  exists i. split_and!; [done..|].
  intros j x Hj Hx Hn. specialize (Hmin j x Hj Hx). by rewrite Hn in Hmin.
Qed.

(** C9, as stated, fails: the anchors are not told apart by their
    visible text.  Here the first anchor showing "GSP 2020" has no
    [href], but shows its text in two pieces; the lookup passes it over,
    takes the next plan anchor, navigates to the sub-page and sets
    [gsp_url]. *)
Lemma split_text_anchor_passed_over :
  ¬ (∀ (page : Page Portal.browser) url year b0 b1 soup docs gsp_link,
        detail_read page url b0 b1 soup →
        find_annual_report soup year docs_init = Ok docs →
        first_tag "a" (fun t => gsp_text (Some (visible_text t))) soup gsp_link →
        get "href" gsp_link = None →
        _harvest_pdfs page url year b0 = (Ok docs, b1) ∧
        docs !! "gsp_url" = Some VNone).
Proof.
  intros H.
  destruct (H (Portal.sim_page
                 (Portal.serve Portal.listing Portal.detail_split_text (Some Portal.plan)))
              "https://sgma.water.ca.gov/portal/gspar/preview/12" 2024 Portal.blank
              (Portal.MkBrowser Portal.detail_split_text ""
                 ["https://sgma.water.ca.gov/portal/gspar/preview/12"])
              Portal.detail_split_text docs_init Portal.split_anchor)
    as [Hrun _].
  - reflexivity.
  - reflexivity.
  - apply first_tag_find. reflexivity.
  - reflexivity.
  - apply (f_equal (fun r : result (gmap string pyval) * Portal.browser =>
                      Portal.visited (snd r))) in Hrun.
    vm_compute in Hrun. discriminate Hrun.
Qed.

(** C9, amended.  When the first anchor whose single text (its
    [.string], which is what the [string=] filter is given: the one text
    an anchor holds, none when it holds several pieces) contains both
    "GSP" and "20" carries no [href], the plan lookup returns at once
    with the dictionary untouched and the page untouched (no navigation
    is attempted), so that [_harvest_pdfs] returns with a null
    [gsp_url], in the browser state in which it took the snapshot of the
    detail page, and nothing is raised. *)
Theorem gsp_link_without_href {B} (page : Page B) url year b0 b1 soup docs gsp_link :
  detail_read page url b0 b1 soup ->
  find_annual_report soup year docs_init = Ok docs ->
  first_tag "a" (fun t => gsp_text (tag_string t)) soup gsp_link ->
  get "href" gsp_link = None ->
  (∀ b, find_gsp page soup docs b = (Ok docs, b)) ∧
  _harvest_pdfs page url year b0 = (Ok docs, b1) ∧
  docs !! "gsp_url" = Some VNone.
Proof.
  intros Hread Hannual Hlink%find_by_string_first Hhref.
  assert (∀ b, find_gsp page soup docs b = (Ok docs, b)) as Hgsp
    by (intros b; by eapply find_gsp_no_href).
  split_and!; [done| |by apply find_annual_report_gsp in Hannual as [? _]].
  rewrite (harvest_pdfs_read _ _ _ _ _ _ Hread).
  unfold lift at 1. unfold bind at 1. by rewrite Hannual.
Qed.

Lemma gsp_link_without_href_witness :
  _harvest_pdfs
    (Portal.sim_page (Portal.serve Portal.listing Portal.detail_section (Some Portal.plan)))
    "https://sgma.water.ca.gov/portal/gspar/preview/12" 2024 Portal.blank
  = (Ok (<["annual_report_url" := VStr "https://sgma.water.ca.gov/document/9"]> docs_init),
     Portal.MkBrowser Portal.detail_section ""
       ["https://sgma.water.ca.gov/portal/gspar/preview/12"]).
Proof.
  refine (proj1 (proj2 (gsp_link_without_href
            (Portal.sim_page (Portal.serve Portal.listing Portal.detail_section (Some Portal.plan)))
            "https://sgma.water.ca.gov/portal/gspar/preview/12" 2024 Portal.blank
            _ Portal.detail_section _
            (Tag "a" [("name", "plan")] [NavigableString "GSP 2020"]) _ _ _ _))).
  - reflexivity.
  - reflexivity.
  - apply find_by_string_first. reflexivity.
  - reflexivity.
Defined.

(** C10.  Whenever a basin match is found (the locator returns a
    non-null detail address) and [get_basin_documents] returns a
    dictionary, its keys are exactly [basin_name], [latest_year],
    [annual_report_url] and [gsp_url]; the first two hold the name and
    the year of the match; [annual_report_url] is null or the domain
    "https://sgma.water.ca.gov" followed by the raw [href] of the anchor
    the annual-report lookup settled on; [gsp_url] is null or the domain
    followed by the raw [href] of the first PDF anchor of the plan
    sub-page. *)
Theorem result_dictionary {B} (page : Page B) identifier b0 b1 b2 b5 url y name d :
  launch page b0 = (Ok tt, b1) ->
  _find_basin_page page identifier b1 = (Ok (Some url, y, name), b2) ->
  get_basin_documents page identifier b0 = (Ok d, b5) ->
  dom d = ({["basin_name"; "latest_year"; "annual_report_url"; "gsp_url"]} : gset string) ∧
  d !! "basin_name" = Some (VStr name) ∧
  d !! "latest_year" = Some (VInt y) ∧
  DOMAIN = "https://sgma.water.ca.gov" ∧
  ∃ soup b3,
    detail_read page url b2 b3 soup ∧
    (d !! "annual_report_url" = Some VNone ∨
     ∃ a href, annual_report_anchor soup y a ∧ get "href" a = Some href ∧
               d !! "annual_report_url" = Some (VStr (DOMAIN +:+ href))) ∧
    (d !! "gsp_url" = Some VNone ∨
     ∃ a href, plan_anchor page soup b3 a ∧ get "href" a = Some href ∧
               d !! "gsp_url" = Some (VStr (DOMAIN +:+ href))).
Proof.
  intros Hlaunch Hfind Hget.
  destruct (find_basin_page_url _ _ _ _ _ _ _ Hfind) as [h ->].
  unfold get_basin_documents in Hget.
  rewrite (bind_Ok _ _ _ _ _ Hlaunch) in Hget. unfold try_finally in Hget.
  rewrite (bind_Ok _ _ _ _ _ Hfind) in Hget.
  change (truthy (DOMAIN +:+ h)) with true in Hget. cbn [negb] in Hget.
  destruct (bind (_harvest_pdfs page (DOMAIN +:+ h) y) _ b2) as [r b4] eqn:Eh.
  destruct (close page b4) as [[[]|e] b5'] eqn:Eclose; [|discriminate].
  simplify_eq.
  run_inv Eh as docs b4' Hharvest. unfold ret in Eh. simplify_eq.
  apply harvest_pdfs_inv in Hharvest as (soup & b3 & docs1 & Hread & Hannual & Hgsp).
  pose proof (find_annual_report_gsp _ _ _ Hannual) as [Hnone Hdom1].
  pose proof (find_gsp_dom _ _ _ _ _ _ Hgsp Hdom1) as Hdom.
  split_and!.
  - rewrite !dom_insert_L, Hdom. set_solver.
  - by rewrite lookup_insert_ne, lookup_insert_eq.
  - by rewrite lookup_insert_eq.
  - reflexivity.
  - exists soup, b3. split_and!; [done| |].
    + rewrite !lookup_insert_ne by done.
      rewrite (find_gsp_annual _ _ _ _ _ _ Hgsp).
      by apply find_annual_report_anchor.
    + rewrite !lookup_insert_ne by done.
      by eapply find_gsp_anchor.
Qed.

Lemma result_dictionary_witness :
  ∃ d b5,
    get_basin_documents
      (Portal.sim_page (Portal.serve Portal.listing Portal.detail_text_match (Some Portal.plan)))
      "Basin A" Portal.blank = (Ok d, b5) ∧
    dom d = ({["basin_name"; "latest_year"; "annual_report_url"; "gsp_url"]} : gset string) ∧
    d !! "basin_name" = Some (VStr "Basin A (1-001)") ∧
    d !! "latest_year" = Some (VInt 2024).
Proof.
  set (page := Portal.sim_page
                 (Portal.serve Portal.listing Portal.detail_text_match (Some Portal.plan))).
  destruct (get_basin_documents page "Basin A" Portal.blank) as [[d|e] b5] eqn:E;
    [|vm_compute in E; discriminate E].
  exists d, b5. split; [done|].
  destruct (result_dictionary page "Basin A" Portal.blank Portal.blank
              (Portal.MkBrowser Portal.listing "Basin A" [BASE_URL]) b5
              "https://sgma.water.ca.gov/portal/gspar/preview/12" 2024
              "Basin A (1-001)" d eq_refl eq_refl E) as (Hdom & Hname & Hyear & _).
  by split_and!.
Defined.

(* ===================================================================== *)
(** ** Further properties of the pipeline *)
(* ===================================================================== *)

(** *** The scan, whatever the rows *)

Section ScanOutcome.
Context (identifier : string) (basin_idx year_idx : nat).

Local Abbreviation cand := (candidate identifier basin_idx year_idx).
Local Abbreviation valid := (valid_row identifier basin_idx year_idx).
Local Abbreviation step := (scan_row identifier basin_idx year_idx).
Local Abbreviation scan := (scan_rows identifier basin_idx year_idx).

Lemma scan_rows_snoc rows r : scan (rows ++ [r]) = step (scan rows) r.
Proof. unfold scan_rows. by rewrite fold_left_app. Qed.

Lemma scan_row_invalid st row : ¬ valid row -> step st row = st.
Proof.
  intros Hno. destruct st as [[u m] n].
  destruct (scan_row_spec identifier basin_idx year_idx u m n row)
    as [[_ ->]|(name & y & href & Hc & _)]; [done|].
  destruct Hno. by exists name, y, href.
Qed.

Lemma scan_rows_cases rows :
  ((∀ row, row ∈ rows → ¬ valid row) ∧ scan rows = (None, 0, "")) ∨
  (∃ k row name y href,
      (rows !! k = Some row ∧ cand row name y href ∧
       (∀ j r n' y' h', rows !! j = Some r → cand r n' y' h' → y' <= y) ∧
       (∀ j r n' y' h', rows !! j = Some r → (k < j)%nat → cand r n' y' h' → y' < y)) ∧
      scan rows = (Some (DOMAIN +:+ href), y, name)).
Proof.
  induction rows as [|r rows IH] using rev_ind.
  { left. split; [|done]. by intros row ?%elem_of_nil. }
  rewrite scan_rows_snoc.
  destruct IH as [[Hno ->]|(k & row & name & y & href & (Hk & Hc & Hmax & Hlater) & ->)].
  - destruct (scan_row_spec identifier basin_idx year_idx None 0 "" r)
      as [[Hr ->]|(name & y & href & Hc & ->)].
    + left. split; [|done].
      intros row [Hrow|Hrow%list_elem_of_singleton]%elem_of_app; [by apply Hno|by subst].
    + right. exists (length rows), r, name, y, href.
      pose proof (candidate_year_range _ _ _ _ _ _ _ Hc) as [Hy%Z.leb_le _].
      rewrite Hy. split; [|done]. split_and!; [|done| |].
      * by rewrite lookup_app_r, Nat.sub_diag.
      * intros j r' n' y' h' [Hj|[_ Hj]]%lookup_app_Some Hc'.
        -- destruct (Hno r'); [by eapply list_elem_of_lookup_2|by exists n', y', h'].
        -- apply list_lookup_singleton_Some in Hj as [_ <-].
           destruct (candidate_unique _ _ _ _ _ _ _ _ _ _ Hc Hc') as (_ & -> & _). lia.
      * intros j r' n' y' h' [Hj|[_ Hj]]%lookup_app_Some Hlt Hc'.
        -- apply lookup_lt_Some in Hj. lia.
        -- apply list_lookup_singleton_Some in Hj as [Hj _]. lia.
  - pose proof (lookup_lt_Some _ _ _ Hk) as Hklen.
    destruct (scan_row_spec identifier basin_idx year_idx
                (Some (DOMAIN +:+ href)) y name r)
      as [[Hr ->]|(name2 & y2 & href2 & Hc2 & ->)].
    + right. exists k, row, name, y, href. split; [|done]. split_and!; [|done| |].
      * by apply lookup_app_l_Some.
      * intros j r' n' y' h' [Hj|[_ Hj]]%lookup_app_Some Hc'; [by eapply Hmax|].
        apply list_lookup_singleton_Some in Hj as [_ <-].
        destruct Hr. by exists n', y', h'.
      * intros j r' n' y' h' [Hj|[_ Hj]]%lookup_app_Some Hlt Hc'; [by eapply Hlater|].
        apply list_lookup_singleton_Some in Hj as [_ <-].
        destruct Hr. by exists n', y', h'.
    + destruct (y <=? y2) eqn:Ecmp.
      * apply Z.leb_le in Ecmp.
        right. exists (length rows), r, name2, y2, href2. split; [|done].
        split_and!; [|done| |].
        -- by rewrite lookup_app_r, Nat.sub_diag.
        -- intros j r' n' y' h' [Hj|[_ Hj]]%lookup_app_Some Hc'.
           ++ pose proof (Hmax _ _ _ _ _ Hj Hc'). lia.
           ++ apply list_lookup_singleton_Some in Hj as [_ <-].
              destruct (candidate_unique _ _ _ _ _ _ _ _ _ _ Hc2 Hc') as (_ & -> & _). lia.
        -- intros j r' n' y' h' [Hj|[_ Hj]]%lookup_app_Some Hlt Hc'.
           ++ apply lookup_lt_Some in Hj. lia.
           ++ apply list_lookup_singleton_Some in Hj as [Hj _]. lia.
      * apply Z.leb_gt in Ecmp.
        right. exists k, row, name, y, href. split; [|done]. split_and!; [|done| |].
        -- by apply lookup_app_l_Some.
        -- intros j r' n' y' h' [Hj|[_ Hj]]%lookup_app_Some Hc'; [by eapply Hmax|].
           apply list_lookup_singleton_Some in Hj as [_ <-].
           destruct (candidate_unique _ _ _ _ _ _ _ _ _ _ Hc2 Hc') as (_ & -> & _). lia.
        -- intros j r' n' y' h' [Hj|[_ Hj]]%lookup_app_Some Hlt Hc'; [by eapply Hlater|].
           apply list_lookup_singleton_Some in Hj as [_ <-].
           destruct (candidate_unique _ _ _ _ _ _ _ _ _ _ Hc2 Hc') as (_ & -> & _). lia.
Qed.

End ScanOutcome.

Lemma fold_scan_filter identifier basin_idx year_idx keep rows st :
  (∀ row, valid_row identifier basin_idx year_idx row → keep row = true) ->
  fold_left (scan_row identifier basin_idx year_idx) (List.filter keep rows) st
  = fold_left (scan_row identifier basin_idx year_idx) rows st.
Proof.
  intros Hkeep. revert st. induction rows as [|r rows IH]; intros st; [done|].
  cbn [List.filter fold_left]. destruct (keep r) eqn:Ek; cbn [fold_left]; [apply IH|].
  rewrite scan_row_invalid; [apply IH|].
  intros Hv. apply Hkeep in Hv. congruence.
Qed.

Lemma candidate_lower identifier identifier' basin_idx year_idx row name y href :
  lower identifier = lower identifier' ->
  candidate identifier basin_idx year_idx row name y href ->
  candidate identifier' basin_idx year_idx row name y href.
Proof.
  intros Hlow (bc & yc & lk & Hb & Hy & Hn & Hin & Hrun & Hlk & Hh & Hne).
  exists bc, yc, lk. rewrite <- Hlow. by split_and!.
Qed.

Lemma str_in_empty hay : str_in "" hay = true.
Proof. by destruct hay. Qed.

Section LocatorOutcome.
Context {B : Type} (page : Page B).
Local Open Scope py_scope.

(** What a successful run of the locator returns: nothing, or the
    outcome of a scan. *)
Lemma find_basin_page_inv identifier b1 b2 r :
  _find_basin_page page identifier b1 = (Ok r, b2) ->
  r = (None, 0, "") ∨
  ∃ basin_idx year_idx rows, r = scan_rows identifier basin_idx year_idx rows.
Proof.
  unfold _find_basin_page. intros H.
  run_inv H as u1 bg Hgoto. run_inv H as u2 bw Hwait.
  run_inv H as soup1 bc Hsoup. run_inv H as headers bh Hheaders.
  destruct (map_headers headers) as [[basin_idx year_idx]|[]]; try discriminate.
  - run_inv H as u3 bf Hfilter. run_inv H as soup2 bc2 Hsoup2.
    run_inv H as rows br Hrows.
    unfold ret in H. simplify_eq. right. by exists basin_idx, year_idx, rows.
  - unfold ret in H. simplify_eq. by left.
Qed.

End LocatorOutcome.

(** X1.  Whenever the locator reaches the scan, its answer is one of
    two: no scanned row is a valid candidate and it returns the null
    address, the year 0 and the empty name; or it returns the address,
    year and name of a valid row whose year no valid row exceeds and
    which no later valid row equals.  So a basin is found exactly when
    some scanned row is valid. *)
Theorem locator_outcome {B} (page : Page B) identifier b1 b3 basin_idx year_idx rows :
  listing_scanned page identifier b1 b3 basin_idx year_idx rows ->
  ((∀ row, row ∈ rows → ¬ valid_row identifier basin_idx year_idx row) ∧
   _find_basin_page page identifier b1 = (Ok (None, 0, ""), b3)) ∨
  (∃ k row name y href,
      (rows !! k = Some row ∧
       candidate identifier basin_idx year_idx row name y href ∧
       (∀ j r n' y' h', rows !! j = Some r →
          candidate identifier basin_idx year_idx r n' y' h' → y' <= y) ∧
       (∀ j r n' y' h', rows !! j = Some r → (k < j)%nat →
          candidate identifier basin_idx year_idx r n' y' h' → y' < y)) ∧
      _find_basin_page page identifier b1 = (Ok (Some (DOMAIN +:+ href), y, name), b3)).
Proof.
  intros Hrun. rewrite (find_basin_page_scans _ _ _ _ _ _ _ Hrun).
  destruct (scan_rows_cases identifier basin_idx year_idx rows)
    as [[Hno ->]|(k & row & name & y & href & Hlatest & ->)].
  - by left.
  - right. by exists k, row, name, y, href.
Qed.

Lemma locator_outcome_witness :
  ∃ k row name y href,
    tail (find_all ["tr"] Portal.listing_tie) !! k = Some row ∧
    candidate "Basin A" 1 0 row name y href ∧
    fst (_find_basin_page
           (Portal.sim_page (Portal.serve Portal.listing_tie Portal.detail_text_match None))
           "Basin A" Portal.blank)
    = Ok (Some (DOMAIN +:+ href), y, name).
Proof.
  set (page := Portal.sim_page (Portal.serve Portal.listing_tie Portal.detail_text_match None)).
  destruct (locator_outcome page "Basin A" Portal.blank
              (Portal.MkBrowser Portal.listing_tie "Basin A" [BASE_URL]) 1 0
              (tail (find_all ["tr"] Portal.listing_tie)))
    as [[Hno _]|(k & row & name & y & href & (Hk & Hc & _) & Hfind)].
  - exists Portal.listing_tie, (Portal.MkBrowser Portal.listing_tie "" [BASE_URL]),
      ["year"; "basin name"], Portal.listing_tie.
    split_and!; reflexivity.
  - exfalso. eapply (Hno (Portal.tr [Portal.td [Portal.txt "2023"];
             Portal.td [Portal.link "/portal/gspar/preview/11" "Basin A (1-001)"]])).
    + apply (list_elem_of_lookup_2 _ 2%nat). reflexivity.
    + exists "Basin A (1-001)", 2023, "/portal/gspar/preview/11".
      apply candidate_scan_first. reflexivity.
  - exists k, row, name, y, href. split_and!; [done..|]. by rewrite Hfind.
Defined.

(** X2.  Rows that are not valid candidates never influence the scan:
    dropping any set of rows that contains no valid candidate leaves the
    result unchanged.  The answer therefore does not depend on how well
    the portal's own filter narrowed the table. *)
Theorem invalid_rows_ignored identifier basin_idx year_idx (keep : node -> bool) rows :
  (∀ row, valid_row identifier basin_idx year_idx row → keep row = true) ->
  scan_rows identifier basin_idx year_idx (List.filter keep rows)
  = scan_rows identifier basin_idx year_idx rows.
Proof. intros Hkeep. unfold scan_rows. by apply fold_scan_filter. Qed.

Lemma invalid_rows_ignored_witness :
  scan_rows "Basin A" 0 2
    (List.filter (fun row => (2 <? length (find_all ["td"] row))%nat)
       [Portal.row_2023; Portal.tr [Portal.td [Portal.txt "No matching records"]];
        Portal.row_2024])
  = scan_rows "Basin A" 0 2
      [Portal.row_2023; Portal.tr [Portal.td [Portal.txt "No matching records"]];
       Portal.row_2024].
Proof.
  apply invalid_rows_ignored.
  intros row (name & y & href & bc & yc & lk & _ & Hy & _).
  apply lookup_lt_Some in Hy. by apply Nat.ltb_lt.
Defined.

(** X3.  When one valid row has a year above that of every other valid
    row, the scan returns it wherever it stands among the rows: the
    hypotheses speak of membership only, so the order of the rows does
    not matter as long as the latest year is not shared. *)
Theorem unique_latest_order_free identifier basin_idx year_idx rows row name y href :
  row ∈ rows ->
  candidate identifier basin_idx year_idx row name y href ->
  (∀ r n' y' h', r ∈ rows →
     candidate identifier basin_idx year_idx r n' y' h' → r = row ∨ y' < y) ->
  scan_rows identifier basin_idx year_idx rows = (Some (DOMAIN +:+ href), y, name).
Proof.
  intros Hin Hc Hothers.
  destruct (scan_rows_cases identifier basin_idx year_idx rows)
    as [[Hno _]|(k & r & n' & y' & h' & (Hk & Hc' & Hmax & _) & ->)].
  { destruct (Hno row Hin). by exists name, y, href. }
  apply list_elem_of_lookup in Hin as [i Hi].
  pose proof (Hmax _ _ _ _ _ Hi Hc) as Hle.
  destruct (Hothers r n' y' h') as [->|Hlt]; [by eapply list_elem_of_lookup_2|done| |lia].
  by destruct (candidate_unique _ _ _ _ _ _ _ _ _ _ Hc Hc') as (-> & -> & ->).
Qed.

Lemma unique_latest_order_free_witness :
  scan_rows "Basin A" 0 2 [Portal.row_2024; Portal.row_other; Portal.row_2023]
  = (Some "https://sgma.water.ca.gov/portal/gspar/preview/12", 2024, "Basin A (1-001)")
  ∧ scan_rows "Basin A" 0 2 [Portal.row_2023; Portal.row_2024; Portal.row_other]
  = (Some "https://sgma.water.ca.gov/portal/gspar/preview/12", 2024, "Basin A (1-001)").
Proof.
  assert (candidate "Basin A" 0 2 Portal.row_2024 "Basin A (1-001)" 2024
            "/portal/gspar/preview/12") as Hc
    by (apply candidate_scan_first; reflexivity).
  split.
  - apply (unique_latest_order_free _ _ _ _ Portal.row_2024 _ _ "/portal/gspar/preview/12");
      [apply elem_of_cons; by left|exact Hc|].
    intros r n' y' h' Hr Hc'. apply candidate_scan_first in Hc'.
    apply elem_of_cons in Hr as [->|Hr]; [by left|].
    apply elem_of_cons in Hr as [->|Hr]; [discriminate Hc'|].
    apply elem_of_cons in Hr as [->|Hr]; [|by apply elem_of_nil in Hr].
    right. vm_compute in Hc'. injection Hc'. lia.
  - apply (unique_latest_order_free _ _ _ _ Portal.row_2024 _ _ "/portal/gspar/preview/12");
      [apply elem_of_cons; right; apply elem_of_cons; by left|exact Hc|].
    intros r n' y' h' Hr Hc'. apply candidate_scan_first in Hc'.
    apply elem_of_cons in Hr as [->|Hr]; [right; vm_compute in Hc'; injection Hc'; lia|].
    apply elem_of_cons in Hr as [->|Hr]; [by left|].
    apply elem_of_cons in Hr as [->|Hr]; [discriminate Hc'|by apply elem_of_nil in Hr].
Defined.

(** X4.  The scan looks at the identifier through [lower] only: two
    identifiers that differ in letter case alone select the same row. *)
Theorem identifier_case_insensitive identifier identifier' basin_idx year_idx rows :
  lower identifier = lower identifier' ->
  scan_rows identifier basin_idx year_idx rows
  = scan_rows identifier' basin_idx year_idx rows.
Proof.
  intros Hlow.
  destruct (scan_rows_cases identifier basin_idx year_idx rows)
    as [[Hno ->]|(k & row & name & y & href & (Hk & Hc & Hmax & Hlater) & ->)].
  - symmetry. apply scan_rows_invalid. intros row Hrow (n' & y' & h' & Hc').
    destruct (Hno row Hrow). exists n', y', h'.
    by apply (candidate_lower identifier' identifier).
  - symmetry. apply (scan_rows_latest _ _ _ rows k row); [done| | |].
    + by apply (candidate_lower identifier identifier').
    + intros j r n' y' h' Hj Hc'. eapply Hmax; [done|].
      by apply (candidate_lower identifier' identifier).
    + intros j r n' y' h' Hj Hlt Hc'. eapply Hlater; [done..|].
      by apply (candidate_lower identifier' identifier).
Qed.

Lemma identifier_case_insensitive_witness :
  scan_rows "BASIN a (1-001)" 0 2 [Portal.row_2023; Portal.row_other; Portal.row_2024]
  = scan_rows "basin A (1-001)" 0 2 [Portal.row_2023; Portal.row_other; Portal.row_2024].
Proof. apply identifier_case_insensitive. reflexivity. Defined.

(** X5.  The empty identifier matches every basin: a row that is a valid
    candidate for some identifier is one for the empty identifier, so a
    query with an empty identifier finds a basin as soon as any row has a
    year and a link, and the year it returns is at least that of every
    such row. *)
Theorem empty_identifier_matches_all identifier basin_idx year_idx rows row name y href :
  row ∈ rows ->
  candidate identifier basin_idx year_idx row name y href ->
  candidate "" basin_idx year_idx row name y href ∧
  ∃ url y0 name0,
    scan_rows "" basin_idx year_idx rows = (Some url, y0, name0) ∧ y <= y0.
Proof.
  intros Hin (bc & yc & lk & Hb & Hy & Hn & _ & Hrun & Hlk & Hh & Hne).
  assert (candidate "" basin_idx year_idx row name y href) as Hc.
  { exists bc, yc, lk. split_and!; try done. apply str_in_empty. }
  split; [done|].
  destruct (scan_rows_cases "" basin_idx year_idx rows)
    as [[Hno _]|(k & r & n' & y' & h' & (_ & _ & Hmax & _) & ->)].
  { destruct (Hno row Hin). by exists name, y, href. }
  exists (DOMAIN +:+ h'), y', n'. split; [done|].
  apply list_elem_of_lookup in Hin as [i Hi]. by eapply Hmax.
Qed.

Lemma empty_identifier_matches_all_witness :
  ∃ url y0 name0,
    scan_rows "" 0 2 [Portal.row_2023; Portal.row_other; Portal.row_2024]
    = (Some url, y0, name0) ∧ 2023 <= y0.
Proof.
  apply (empty_identifier_matches_all "Basin A" 0 2 _ Portal.row_2023
           "Basin A (1-001)" 2023 "/portal/gspar/preview/11").
  - apply elem_of_cons. by left.
  - apply candidate_scan_first. reflexivity.
Defined.

(** X6.  The column map is sound.  Whenever the header the code
    computes from a listing snapshot is mapped to two indices, each index
    is that of a cell of the header row whose text, as the page shows it
    and letter case ignored, contains the keyword of its role, the
    leftmost such cell, and so lies within the header row. *)
Theorem column_map_sound soup table header_row headers basin_idx year_idx :
  find "table" soup = Some table ->
  match find "thead" table with
  | Some thead => find "tr" thead
  | None => find "tr" table
  end = Some header_row ->
  header_texts soup = Ok headers ->
  map_headers headers = Ok (basin_idx, year_idx) ->
  first_match "basin" (get_text_strip <$> find_all ["th"; "td"] header_row) basin_idx ∧
  first_match "year" (get_text_strip <$> find_all ["th"; "td"] header_row) year_idx ∧
  (basin_idx < length (find_all ["th"; "td"] header_row))%nat ∧
  (year_idx < length (find_all ["th"; "td"] header_row))%nat.
Proof.
  intros Htable Hrow Hhead Hmap.
  rewrite (header_texts_of_row _ _ _ Htable Hrow) in Hhead. injection Hhead as <-.
  set (texts := get_text_strip <$> find_all ["th"; "td"] header_row) in *.
  unfold map_headers in Hmap.
  destruct (next_index_cases "basin" texts) as [[i Hi]|Hb];
    [|by rewrite (next_index_absent _ _ Hb) in Hmap].
  rewrite (next_index_first _ _ _ Hi) in Hmap.
  destruct (next_index_cases "year" texts) as [[j Hj]|Hy];
    [|by rewrite (next_index_absent _ _ Hy) in Hmap].
  rewrite (next_index_first _ _ _ Hj) in Hmap. simplify_eq.
  split_and!; [done..| |].
  - destruct Hi as [(h & Hh & _) _]. apply lookup_lt_Some in Hh.
    unfold texts in Hh. by rewrite length_fmap in Hh.
  - destruct Hj as [(h & Hh & _) _]. apply lookup_lt_Some in Hh.
    unfold texts in Hh. by rewrite length_fmap in Hh.
Qed.

Lemma column_map_sound_witness :
  first_match "basin" ["Year"; "Basin Name"] 1 ∧
  first_match "year" ["Year"; "Basin Name"] 0.
Proof.
  edestruct (column_map_sound Portal.listing_tie) as (Hb & Hy & _);
    [reflexivity..|].
  split; [exact Hb|exact Hy].
Defined.

(** *** Outcomes of the methods *)

(** The annual-report lookup raises in one way only. *)
Lemma find_annual_report_Raise soup year docs e :
  find_annual_report soup year docs = Raise e ↔
  e = KeyError "href" ∧
  ∃ a, first_tag "a" (fun t => text_pattern year (tag_string t)) soup a ∧
       get "href" a = None.
Proof.
  unfold find_annual_report, getitem. split.
  - destruct (find_by_string "a" (text_pattern year) soup) as [a|] eqn:EA.
    + destruct (get "href" a) eqn:Eh; [discriminate|].
      intros [= <-]. split; [done|]. exists a. split; [by apply find_by_string_first|done].
    + destruct (find_string section_header soup) as [[s parents]|]; [|discriminate].
      cbn [snd]. destruct (container_of parents) as [c|]; [|discriminate].
      destruct (find_by_attr "a" "href" document_href c) as [a|] eqn:Ea; [|discriminate].
      apply find_by_attr_first in Ea.
      destruct (first_tag_href _ _ _ _ Ea eq_refl) as [href ->]. discriminate.
  - intros (-> & a & Ha%find_by_string_first & Hh). by rewrite Ha, Hh.
Qed.

Section Outcomes.
Context {B : Type} (page : Page B).
Local Open Scope py_scope.

Lemma get_basin_documents_inv identifier b0 b5 d :
  get_basin_documents page identifier b0 = (Ok d, b5) ->
  ∃ b1 b2 found,
    launch page b0 = (Ok tt, b1) ∧
    _find_basin_page page identifier b1 = (Ok found, b2) ∧
    match found with
    | (Some url, y, name) =>
        truthy url = false ∧ d = ∅ ∨
        ∃ docs b4, _harvest_pdfs page url y b2 = (Ok docs, b4) ∧
                   d = <["latest_year" := VInt y]> (<["basin_name" := VStr name]> docs)
    | (None, _, _) => d = ∅
    end.
Proof.
  unfold get_basin_documents. intros H.
  run_inv H as u b1 Hlaunch. destruct u. unfold try_finally in H.
  destruct (bind (_find_basin_page page identifier) _ b1) as [r b4] eqn:Ebody.
  destruct (close page b4) as [[[]|e] b5'] eqn:Eclose; [|discriminate].
  simplify_eq. run_inv Ebody as found b2 Hfind.
  exists b1, b2, found. split_and!; [done..|].
  destruct found as [[[url|] y] name]; [|unfold ret in Ebody; by simplify_eq].
  destruct (truthy url) eqn:Et; cbn [negb] in Ebody.
  - right. run_inv Ebody as docs b4' Hharvest. unfold ret in Ebody. simplify_eq.
    by exists docs, b4.
  - left. unfold ret in Ebody. by simplify_eq.
Qed.

End Outcomes.

(** X7.  Whatever the page does, a dictionary returned by
    [get_basin_documents] is either empty or complete: it has exactly the
    keys [basin_name], [latest_year], [annual_report_url] and [gsp_url],
    its [basin_name] is a text that contains the identifier (letter case
    ignored) and its [latest_year] is an integer between 0 and 9999.  A
    partial dictionary is never returned. *)
Theorem result_empty_or_complete {B} (page : Page B) identifier b0 b5 d :
  get_basin_documents page identifier b0 = (Ok d, b5) ->
  d = ∅ ∨
  (dom d = ({["basin_name"; "latest_year"; "annual_report_url"; "gsp_url"]} : gset string) ∧
   ∃ name y,
     d !! "basin_name" = Some (VStr name) ∧
     d !! "latest_year" = Some (VInt y) ∧
     str_in (lower identifier) (lower name) = true ∧
     0 <= y <= 9999).
Proof.
  intros (b1 & b2 & [[[url|] y] name] & Hlaunch & Hfind & Hd)%get_basin_documents_inv;
    [|by left].
  destruct Hd as [[_ ->]|(docs & b4 & Hharvest & ->)]; [by left|]. right.
  apply harvest_pdfs_inv in Hharvest as (soup & b3 & docs1 & _ & Hannual & Hgsp).
  pose proof (find_annual_report_gsp _ _ _ Hannual) as [_ Hdom1].
  pose proof (find_gsp_dom _ _ _ _ _ _ Hgsp Hdom1) as Hdom.
  split; [rewrite !dom_insert_L, Hdom; set_solver|].
  exists name, y. rewrite lookup_insert_ne, !lookup_insert_eq by done.
  do 2 (split; [done|]).
  apply find_basin_page_inv in Hfind as [[=]|(bi & yi & rows & Hscan)].
  destruct (scan_rows_cases identifier bi yi rows)
    as [[_ Hnone]|(k & row & n' & y' & h' & (_ & Hc & _) & Hsome)];
    rewrite <- Hscan in *; [discriminate Hnone|].
  pose proof (f_equal (fun t : best => snd (fst t)) Hsome) as Hy.
  pose proof (f_equal (fun t : best => snd t) Hsome) as Hn.
  cbn in Hy, Hn. subst y' n'. split; [|by eapply candidate_year_range].
  by destruct Hc as (bc & yc & lk & _ & _ & _ & Hin & _).
Qed.

Lemma result_empty_or_complete_witness :
  ∃ name y,
    fst (get_basin_documents
           (Portal.sim_page (Portal.serve Portal.listing Portal.detail_text_match None))
           "basin a" Portal.blank) = Ok (<["latest_year" := VInt y]>
                                        (<["basin_name" := VStr name]>
                                        (<["annual_report_url" :=
                                             VStr "https://sgma.water.ca.gov/document/555"]>
                                           docs_init))) ∧
    str_in "basin a" (lower name) = true ∧ 0 <= y <= 9999.
Proof.
  set (page := Portal.sim_page (Portal.serve Portal.listing Portal.detail_text_match None)).
  destruct (get_basin_documents page "basin a" Portal.blank) as [r b5] eqn:E.
  assert (r = Ok (<["latest_year" := VInt 2024]>
                    (<["basin_name" := VStr "Basin A (1-001)"]>
                    (<["annual_report_url" := VStr "https://sgma.water.ca.gov/document/555"]>
                       docs_init)))) as ->
    by exact (f_equal fst (eq_sym E)).
  destruct (result_empty_or_complete page "basin a" Portal.blank b5 _ E)
    as [Hempty|(_ & name & y & Hname & Hyear & Hin & Hrange)].
  - apply (f_equal (fun m : gmap string pyval => m !! "latest_year")) in Hempty.
    rewrite lookup_insert_eq in Hempty. discriminate Hempty.
  - rewrite lookup_insert_ne, lookup_insert_eq in Hname by done.
    rewrite lookup_insert_eq in Hyear. simplify_eq.
    exists "Basin A (1-001)", 2024. by split_and!.
Defined.

(** X8.  On every snapshot, the annual-report lookup raises exactly
    when the first anchor whose text matches the pattern of the year has
    no [href]; what it raises is [KeyError('href')].  The section lookup
    never raises: the anchor it selects is selected on its [href]. *)
Theorem annual_report_lookup_raises soup year docs e :
  find_annual_report soup year docs = Raise e ↔
  e = KeyError "href" ∧
  ∃ a, first_tag "a" (fun t => text_pattern year (tag_string t)) soup a ∧
       get "href" a = None.
Proof. apply find_annual_report_Raise. Qed.

Lemma annual_report_lookup_raises_witness :
  ∃ a, first_tag "a" (fun t => text_pattern 2024 (tag_string t)) Portal.detail_no_href a ∧
       get "href" a = None.
Proof.
  apply (proj1 (annual_report_lookup_raises Portal.detail_no_href 2024 docs_init
                  (KeyError "href")) eq_refl).
Defined.

(** X9.  [_harvest_pdfs] lets an exception out in two cases only: the
    snapshot of the detail page cannot be taken, or the text-matched
    anchor has no [href].  A failed navigation to the detail page, a
    timeout of the wait for an anchor and any failure of the plan
    sub-page are never raised to the caller. *)
Theorem harvest_pdfs_raises_only {B} (page : Page B) url year b0 b' e :
  _harvest_pdfs page url year b0 = (Raise e, b') ->
  ∃ b1, load_detail page url b0 = (Ok tt, b1) ∧
        (content page b1 = (Raise e, b') ∨
         ∃ soup a, content page b1 = (Ok soup, b') ∧ e = KeyError "href" ∧
                   first_tag "a" (fun t => text_pattern year (tag_string t)) soup a ∧
                   get "href" a = None).
Proof.
  intros H. destruct (load_detail_total page url b0) as [b1 Hload].
  exists b1. split; [done|].
  unfold _harvest_pdfs in H. rewrite (bind_Ok _ _ _ _ _ Hload) in H.
  unfold bind at 1 in H.
  destruct (content page b1) as [[soup|e'] b2] eqn:Econtent; [|left; by simplify_eq].
  right. unfold bind, lift in H.
  destruct (find_annual_report soup year docs_init) as [docs|e'] eqn:Eannual.
  - destruct (find_gsp_frame page soup docs b2) as (d & bd & Hd & _).
    rewrite Hd in H. discriminate.
  - simplify_eq. apply find_annual_report_Raise in Eannual as (-> & a & Ha & Hh).
    by exists soup, a.
Qed.

Lemma harvest_pdfs_raises_only_witness :
  ∃ soup a,
    soup = Portal.detail_no_href ∧
    first_tag "a" (fun t => text_pattern 2024 (tag_string t)) soup a ∧
    get "href" a = None.
Proof.
  destruct (harvest_pdfs_raises_only
              (Portal.sim_page (Portal.serve Portal.listing Portal.detail_no_href None))
              "https://sgma.water.ca.gov/portal/gspar/preview/12" 2024 Portal.blank
              (Portal.MkBrowser Portal.detail_no_href ""
                 ["https://sgma.water.ca.gov/portal/gspar/preview/12"])
              (KeyError "href") eq_refl)
    as (b1 & Hload & [Hc|(soup & a & Hc & _ & Ha & Hh)]).
  - vm_compute in Hload. injection Hload as <-. discriminate Hc.
  - vm_compute in Hload. injection Hload as <-.
    exists soup, a. split_and!; [|done..]. cbn in Hc. congruence.
Defined.

(** X10.  The plan lookup never touches [annual_report_url], whether
    the hop succeeds, fails or is not attempted: once the snapshot of the
    detail page is taken and the annual-report lookup has returned,
    [_harvest_pdfs] returns a dictionary with the two keys
    [annual_report_url] and [gsp_url] in which [annual_report_url] is
    what the annual-report lookup left. *)
Theorem plan_lookup_keeps_annual_report {B} (page : Page B) url year b0 b1 soup docs1 :
  detail_read page url b0 b1 soup ->
  find_annual_report soup year docs_init = Ok docs1 ->
  ∃ docs b2,
    _harvest_pdfs page url year b0 = (Ok docs, b2) ∧
    docs !! "annual_report_url" = docs1 !! "annual_report_url" ∧
    dom docs = ({["annual_report_url"; "gsp_url"]} : gset string).
Proof.
  intros Hread Hannual.
  destruct (find_gsp_frame page soup docs1 b1) as (docs & b2 & Hgsp & _).
  exists docs, b2. split_and!.
  - rewrite (harvest_pdfs_read _ _ _ _ _ _ Hread).
    unfold lift at 1. unfold bind at 1. by rewrite Hannual.
  - by eapply find_gsp_annual.
  - eapply find_gsp_dom; [done|]. by apply find_annual_report_gsp in Hannual as [_ ?].
Qed.

Lemma plan_lookup_keeps_annual_report_witness :
  ∃ docs b2,
    _harvest_pdfs
      (Portal.sim_page (Portal.serve Portal.listing Portal.detail_text_match (Some Portal.plan)))
      "https://sgma.water.ca.gov/portal/gspar/preview/12" 2024 Portal.blank
    = (Ok docs, b2) ∧
    docs !! "annual_report_url" = Some (VStr "https://sgma.water.ca.gov/document/555").
Proof.
  destruct (plan_lookup_keeps_annual_report
              (Portal.sim_page
                 (Portal.serve Portal.listing Portal.detail_text_match (Some Portal.plan)))
              "https://sgma.water.ca.gov/portal/gspar/preview/12" 2024 Portal.blank
              (Portal.MkBrowser Portal.detail_text_match ""
                 ["https://sgma.water.ca.gov/portal/gspar/preview/12"])
              Portal.detail_text_match
              (<["annual_report_url" := VStr "https://sgma.water.ca.gov/document/555"]>
                 docs_init) eq_refl eq_refl)
    as (docs & b2 & Hrun & Hannual & _).
  exists docs, b2. split; [done|]. by rewrite Hannual, lookup_insert_eq.
Defined.

(** X11.  The plan lookup does nothing at all, neither to the
    dictionary nor to the page, when no anchor has a text containing
    both "GSP" and "20", and when the first such anchor has an empty
    [href]: the bare domain is never navigated to. *)
Theorem plan_lookup_skipped {B} (page : Page B) soup docs :
  no_tag "a" (fun t => gsp_text (tag_string t)) soup ∨
  (∃ gsp_link, first_tag "a" (fun t => gsp_text (tag_string t)) soup gsp_link ∧
               get "href" gsp_link = Some "") ->
  ∀ b, find_gsp page soup docs b = (Ok docs, b).
Proof.
  intros [Hno%find_by_string_none|(g & Hg%find_by_string_first & Hh)] b;
    unfold find_gsp.
  - by rewrite Hno.
  - by rewrite Hg, Hh.
Qed.

Lemma plan_lookup_skipped_witness :
  find_gsp (Portal.sim_page (Portal.serve Portal.listing Portal.detail_nested None))
    Portal.detail_nested docs_init Portal.blank
  = (Ok docs_init, Portal.blank)
  ∧ find_gsp (Portal.sim_page (Portal.serve Portal.listing Portal.detail_nested None))
      (soup [Portal.link "" "GSP 2020"]) docs_init Portal.blank
  = (Ok docs_init, Portal.blank).
Proof.
  split.
  - apply plan_lookup_skipped. left. apply find_by_string_none. reflexivity.
  - apply plan_lookup_skipped. right. exists (Portal.link "" "GSP 2020").
    split; [apply find_by_string_first|]; reflexivity.
Defined.

(** X12.  A listing snapshot without a header row makes the whole query
    raise [AttributeError]: when the snapshot holds no table, when its
    table has a [thead] without any row (rows elsewhere in the table are
    not looked at), or when a table without [thead] has no row at all,
    the exception leaves [get_basin_documents] once the browser is
    closed. *)
Theorem missing_header_row_raises {B} (page : Page B) identifier b0 b1 b2 b3 soup :
  launch page b0 = (Ok tt, b1) ->
  (goto page BASE_URL None None ;;
   wait_for_selector page "table" 15000 ;;
   content page)%py b1 = (Ok soup, b2) ->
  (find "table" soup = None ∨
   ∃ table, find "table" soup = Some table ∧
            match find "thead" table with
            | Some thead => find "tr" thead = None
            | None => find "tr" table = None
            end) ->
  close page b2 = (Ok tt, b3) ->
  ∃ msg, get_basin_documents page identifier b0 = (Raise (AttributeError msg), b3).
Proof.
  intros Hlaunch Hread Hmissing Hclose.
  assert (∃ msg, header_texts soup = Raise (AttributeError msg)) as [msg Hhead].
  { unfold header_texts. destruct Hmissing as [->|(table & -> & Hrow)]; [by eexists|].
    destruct (find "thead" table); rewrite Hrow; by eexists. }
  exists msg. eapply get_basin_documents_raises; [done| |done].
  run_inv Hread as u1 bg Hgoto. run_inv Hread as u2 bw Hwait.
  unfold _find_basin_page.
  rewrite (bind_Ok _ _ _ _ _ Hgoto), (bind_Ok _ _ _ _ _ Hwait), (bind_Ok _ _ _ _ _ Hread).
  unfold lift, bind. by rewrite Hhead.
Qed.

Lemma missing_header_row_raises_witness :
  ∃ msg,
    fst (get_basin_documents
           (Portal.sim_page
              (Portal.serve
                 (soup [Tag "table" [] [Tag "thead" [] []; Tag "tbody" [] [Portal.row_2024]]])
                 Portal.detail_text_match None))
           "Basin A" Portal.blank)
    = Raise (AttributeError msg).
Proof.
  set (listing := soup [Tag "table" [] [Tag "thead" [] []; Tag "tbody" [] [Portal.row_2024]]]).
  destruct (missing_header_row_raises
              (Portal.sim_page (Portal.serve listing Portal.detail_text_match None))
              "Basin A" Portal.blank Portal.blank
              (Portal.MkBrowser listing "" [BASE_URL])
              (Portal.MkBrowser listing "" [BASE_URL]) listing eq_refl eq_refl)
    as [msg Hmsg].
  - right. eexists. split; reflexivity.
  - reflexivity.
  - exists msg. by rewrite Hmsg.
Defined.

(** X13.  Once the header is mapped, a failure of the search box (it
    never becomes visible, or typing or confirming fails) is not
    recovered: the exception leaves [get_basin_documents] once the
    browser is closed, and no dictionary is returned. *)
Theorem filter_failure_escapes {B} (page : Page B) identifier b0 b1 b2 b3 b4
    texts basin_idx year_idx e :
  launch page b0 = (Ok tt, b1) ->
  header_read page b1 b2 texts ->
  map_headers (lower <$> texts) = Ok (basin_idx, year_idx) ->
  apply_filter page identifier b2 = (Raise e, b3) ->
  close page b3 = (Ok tt, b4) ->
  get_basin_documents page identifier b0 = (Raise e, b4).
Proof.
  intros Hlaunch (soup1 & Hread & Hhead) Hmap Hfilter Hclose.
  eapply get_basin_documents_raises; [done| |done].
  run_inv Hread as u1 bg Hgoto. run_inv Hread as u2 bw Hwait.
  unfold _find_basin_page.
  rewrite (bind_Ok _ _ _ _ _ Hgoto), (bind_Ok _ _ _ _ _ Hwait), (bind_Ok _ _ _ _ _ Hread).
  unfold lift at 1. unfold bind at 1. rewrite Hhead, Hmap.
  by rewrite (bind_Raise _ _ _ _ _ Hfilter).
Qed.

Lemma filter_failure_escapes_witness :
  fst (get_basin_documents
         (MkPage Portal.browser (ret tt) (ret tt)
            (fun url _ _ => Portal.sim_goto (Portal.serve Portal.listing Portal.plan None) url)
            (fun sel _ => Portal.sim_wait_for_selector sel)
            (fun b => (Ok (Portal.current b), b))
            (fun _ _ => raise (TimeoutError "Locator.wait_for: Timeout 30000ms exceeded."))
            (fun _ _ => ret tt) (fun _ => ret tt) (fun _ => ret tt))
         "Basin A" Portal.blank)
  = Raise (TimeoutError "Locator.wait_for: Timeout 30000ms exceeded.").
Proof.
  rewrite (filter_failure_escapes _ "Basin A" Portal.blank Portal.blank
             (Portal.MkBrowser Portal.listing "" [BASE_URL])
             (Portal.MkBrowser Portal.listing "" [BASE_URL])
             (Portal.MkBrowser Portal.listing "" [BASE_URL])
             ["Basin"; "Status"; "Year"] 0 2
             (TimeoutError "Locator.wait_for: Timeout 30000ms exceeded.")).
  - reflexivity.
  - reflexivity.
  - exists Portal.listing. split; reflexivity.
  - reflexivity.
  - reflexivity.
  - reflexivity.
Defined.

(** X14.  When the first anchor mentioning a plan has a non-empty
    [href] and the sub-page loads, [_harvest_pdfs] ends on the sub-page
    and [gsp_url] is the domain followed by the [href] of the first
    anchor of the sub-page whose [href], lower-cased, ends with ".pdf";
    it is null when the sub-page has no such anchor.  The rest of the
    dictionary is as the annual-report lookup left it. *)
Theorem plan_lookup_follows_first_pdf {B} (page : Page B) url year
    b0 b1 b2 b3 soup docs1 gsp_link href sub_soup :
  detail_read page url b0 b1 soup ->
  find_annual_report soup year docs_init = Ok docs1 ->
  first_tag "a" (fun t => gsp_text (tag_string t)) soup gsp_link ->
  get "href" gsp_link = Some href -> href ≠ "" ->
  goto page (DOMAIN +:+ href) (Some 30000) (Some "domcontentloaded") b1 = (Ok tt, b2) ->
  content page b2 = (Ok sub_soup, b3) ->
  ∃ v,
    _harvest_pdfs page url year b0 = (Ok (<["gsp_url" := v]> docs1), b3) ∧
    ((no_tag "a" (fun t => pdf_href (get "href" t)) sub_soup ∧ v = VNone) ∨
     (∃ a pdf pre,
        first_tag "a" (fun t => pdf_href (get "href" t)) sub_soup a ∧
        get "href" a = Some pdf ∧ lower pdf = pre +:+ ".pdf" ∧
        v = VStr (DOMAIN +:+ pdf))).
Proof.
  intros Hread Hannual Hlink%find_by_string_first Hhref Hne%truthy_nonempty Hgoto Hsub.
  rewrite (harvest_pdfs_read _ _ _ _ _ _ Hread).
  unfold lift at 1. unfold bind at 1. rewrite Hannual.
  unfold find_gsp. rewrite Hlink, Hhref, Hne.
  unfold try_except, gsp_hop.
  rewrite (bind_Ok _ _ _ _ _ Hgoto), (bind_Ok _ _ _ _ _ Hsub).
  unfold lift, find_final_pdf, getitem.
  destruct (find_by_attr "a" "href" pdf_href sub_soup) as [a|] eqn:Ea.
  - pose proof (proj1 (find_by_attr_first _ _ _ _ _) Ea) as Hfirst.
    destruct (first_tag_href _ _ _ _ Hfirst eq_refl) as [pdf Hpdf]. rewrite Hpdf.
    exists (VStr (DOMAIN +:+ pdf)). split; [done|]. right.
    destruct Hfirst as (i & Hi & Hname & Hacc & Hmin).
    pose proof Hacc as Hacc'. rewrite Hpdf in Hacc'. cbn [pdf_href] in Hacc'.
    apply andb_prop in Hacc' as [_ [pre Hpre]%endswith_spec].
    exists a, pdf, pre. split_and!; [by exists i|done..].
  - exists VNone. split.
    + rewrite insert_id; [done|]. by apply find_annual_report_gsp in Hannual as [? _].
    + left. split; [by apply find_by_attr_none|done].
Qed.

Lemma plan_lookup_follows_first_pdf_witness :
  _harvest_pdfs
    (Portal.sim_page (Portal.serve Portal.listing Portal.detail_text_match (Some Portal.plan)))
    "https://sgma.water.ca.gov/portal/gspar/preview/12" 2024 Portal.blank
  = (Ok (<["gsp_url" := VStr "https://sgma.water.ca.gov/service/document/Plan.PDF"]>
           (<["annual_report_url" := VStr "https://sgma.water.ca.gov/document/555"]>
              docs_init)),
     Portal.MkBrowser Portal.plan ""
       ["https://sgma.water.ca.gov/portal/gspar/preview/12";
        "https://sgma.water.ca.gov/portal/gsp/preview/7"]).
Proof.
  set (page := Portal.sim_page
                 (Portal.serve Portal.listing Portal.detail_text_match (Some Portal.plan))).
  set (url := "https://sgma.water.ca.gov/portal/gspar/preview/12").
  destruct (plan_lookup_follows_first_pdf page url 2024 Portal.blank
              (Portal.MkBrowser Portal.detail_text_match "" [url])
              (Portal.MkBrowser Portal.plan ""
                 [url; "https://sgma.water.ca.gov/portal/gsp/preview/7"])
              (Portal.MkBrowser Portal.plan ""
                 [url; "https://sgma.water.ca.gov/portal/gsp/preview/7"])
              Portal.detail_text_match
              (<["annual_report_url" := VStr "https://sgma.water.ca.gov/document/555"]>
                 docs_init)
              (Portal.link "/portal/gsp/preview/7" "GSP 2022") "/portal/gsp/preview/7"
              Portal.plan) as (v & Hrun & _).
  - reflexivity.
  - reflexivity.
  - apply find_by_string_first. reflexivity.
  - reflexivity.
  - discriminate.
  - reflexivity.
  - reflexivity.
  - reflexivity.
Defined.
